(** * Rubi Studio, back-end v2: the prompt execution engine

    A shallow embedding of

    - [app/llm_providers.py]: the provider classes, their price tables and
      [calculate_cost], and [LLMFactory.get_provider];
    - [app/validators.py]: [validate_variables_against_schema];
    - [app/schemas.py]: [PromptExecutionRequest];
    - [app/main.py]: the route [execute_prompt], its metrics and the
      execution history it writes.

    Conventions of the embedding.

    - Python [int] is [Z]. Python [float] is idealised as an exact rational
      ([Q]): every arithmetic step is exact, nothing overflows, and
      [round(x, 6)] rounds the exact value, half to even. [int(tokens * 0.75)] and
      [int(tokens * 0.25)] are exact in binary floating point as well for
      every token count below 2^51, since 0.75 and 0.25 are dyadic.
    - A Python [dict] with string keys is a [gmap string _].
    - A call that may raise returns a [result]; the route, which also updates
      the metrics and the database, runs in a state-and-exception monad.
      One call of the route is modelled, on its own; the database accepts
      every write, and the clock advances while the vendor is awaited.
    - What lies outside the repository is a parameter: the [jsonschema]
      validator and [str.format] ([Libraries]), the process environment,
      the vendor services and the clock ([World]). *)

From Stdlib Require Import ZArith QArith Qround Lqa Lia String Ascii.
From stdpp Require Import gmap strings list fin_maps pretty.

Set Warnings "-register-all".

Local Open Scope string_scope.

(** ** Python values, truthiness and exceptions *)

(** A JSON document as Python holds it after decoding ([Any]). *)
Inductive json :=
| JNull
| JBool (b : bool)
| JInt (n : Z)
| JFloat (q : Q)
| JStr (s : string)
| JArr (l : list json)
| JObj (m : gmap string json).

(** The exception classes raised inside the repository's code, except
    [fastapi.HTTPException], which only the route itself raises.
    [APIError] stands for the error classes of the vendor SDKs. *)
Inductive py_exn :=
| ValueError (msg : string)
| KeyError (key : string)
| TypeError (msg : string)
| AttributeError (msg : string)
| IndexError (msg : string)
| APIError (msg : string).

(** [str(e)]. A [KeyError] prints the [repr] of its key. *)
Definition str_exn (e : py_exn) : string :=
  match e with
  | ValueError msg | TypeError msg | AttributeError msg
  | IndexError msg | APIError msg => msg
  | KeyError key => "'" ++ key ++ "'"
  end.

Inductive result (E A : Type) :=
| Ok (a : A)
| Raise (e : E).
Arguments Ok {E A} a.
Arguments Raise {E A} e.

Definition result_bind {E A B} (r : result E A) (k : A → result E B) : result E B :=
  match r with
  | Ok a => k a
  | Raise e => Raise e
  end.

(** [x or d] on an [Optional[str]]: [None] and the empty string are falsy. *)
Definition truthy_str (x : option string) : bool :=
  match x with
  | Some s => negb (String.eqb s "")
  | None => false
  end.

Definition py_or (x : option string) (d : string) : string :=
  match x with
  | Some s => if String.eqb s "" then d else s
  | None => d
  end.

(** ** [app/llm_providers.py] *)

(** One entry of a price table: USD per 1000 tokens. *)
Record price := { input : Q; output : Q }.

(** [int(x)] on a float: truncation towards zero. *)
Definition int (x : Q) : Z := Z.quot (Qnum x) (Z.pos (Qden x)).

(** Rounding of an exact rational to the nearest integer, half to even. *)
Definition round_half_even (x : Q) : Z :=
  let f := Qfloor x in
  match (x - inject_Z f ?= 1 # 2)%Q with
  | Lt => f
  | Gt => (f + 1)%Z
  | Eq => if Z.even f then f else (f + 1)%Z
  end.

(** [round(x, 6)]. *)
Definition round6 (x : Q) : Q := Qmake (round_half_even (x * 1000000)) 1000000.

(** [self.pricing[model]["input"]] and [...["output"]] after the two
    token counts are known (lines 92-100, shared by the three classes). *)
Definition priced (pricing : gmap string price) (tokens : Z) (model : string)
  : result py_exn Q :=
  (* Approximation: 75% input, 25% output *)
  let input_tokens := int (inject_Z tokens * 0.75) in
  let output_tokens := int (inject_Z tokens * 0.25) in
  match pricing !! model with
  | None => Raise (KeyError model)
  | Some p =>
      let cost :=
        ((inject_Z input_tokens / 1000) * input p +
         (inject_Z output_tokens / 1000) * output p)%Q in
      Ok (round6 cost)
  end.

(** The abstract class [LLMProvider]: [execute] is the request to the
    vendor, whose outcome and duration the world supplies. *)
Record execution_result := {
  res_output : string;
  res_tokens_used : Z;
  res_model : string
}.

Record LLMProvider := {
  execute : string → string → option Q → option Z →
            result py_exn execution_result * Q;
  calculate_cost : Z → string → result py_exn Q
}.

(** A vendor service: prompt, model, temperature, max_tokens to the
    generated text with its token count or an error, and the seconds it
    took. *)
Definition vendor :=
  string → string → option Q → option Z → result py_exn (string * Z) * Q.

Definition vendor_execute (client : vendor)
    (prompt model : string) (temperature : option Q) (max_tokens : option Z)
  : result py_exn execution_result * Q :=
  match client prompt model temperature max_tokens with
  | (Ok (text, tokens), dt) =>
      (Ok {| res_output := text; res_tokens_used := tokens; res_model := model |}, dt)
  | (Raise e, dt) => (Raise e, dt)  (* logger.error(...); raise *)
  end.

Module OpenAIProvider.
Definition pricing : gmap string price :=
  {[ "gpt-4" := {| input := 0.03; output := 0.06 |};
     "gpt-4-turbo" := {| input := 0.01; output := 0.03 |};
     "gpt-3.5-turbo" := {| input := 0.0005; output := 0.0015 |} ]}.

Definition calculate_cost (tokens : Z) (model : string) : result py_exn Q :=
  let model := if bool_decide (model ∉ dom pricing) then "gpt-4" else model in
  priced pricing tokens model.

Definition new (getenv : string → option string) (client : vendor)
  : result py_exn LLMProvider :=
  if truthy_str (getenv "OPENAI_API_KEY")
  then Ok (Build_LLMProvider (vendor_execute client) calculate_cost)
  else Raise (ValueError "OPENAI_API_KEY environment variable not set").
End OpenAIProvider.

Module GeminiProvider.
Definition pricing : gmap string price :=
  {[ "gemini-pro" := {| input := 0.00025; output := 0.0005 |};
     "gemini-2.5-flash" := {| input := 0.000075; output := 0.0003 |} ]}.

Definition calculate_cost (tokens : Z) (model : string) : result py_exn Q :=
  let model := if bool_decide (model ∉ dom pricing) then "gemini-pro" else model in
  priced pricing tokens model.

Definition new (getenv : string → option string) (client : vendor)
  : result py_exn LLMProvider :=
  if truthy_str (getenv "GEMINI_API_KEY")
  then Ok (Build_LLMProvider (vendor_execute client) calculate_cost)
  else Raise (ValueError "GEMINI_API_KEY environment variable not set").
End GeminiProvider.

Module ClaudeProvider.
Definition pricing : gmap string price :=
  {[ "claude-3-opus-20240229" := {| input := 0.015; output := 0.075 |};
     "claude-3-sonnet-20240229" := {| input := 0.003; output := 0.015 |};
     "claude-3-haiku-20240307" := {| input := 0.00025; output := 0.00125 |} ]}.

Definition calculate_cost (tokens : Z) (model : string) : result py_exn Q :=
  let model :=
    if bool_decide (model ∉ dom pricing) then "claude-3-sonnet-20240229" else model in
  priced pricing tokens model.

Definition new (getenv : string → option string) (client : vendor)
  : result py_exn LLMProvider :=
  if truthy_str (getenv "ANTHROPIC_API_KEY")
  then Ok (Build_LLMProvider (vendor_execute client) calculate_cost)
  else Raise (ValueError "ANTHROPIC_API_KEY environment variable not set").
End ClaudeProvider.

(** The three provider classes, for statements that range over them. *)
Inductive provider_class := OpenAI | Gemini | Claude.

Definition pricing_of (c : provider_class) : gmap string price :=
  match c with
  | OpenAI => OpenAIProvider.pricing
  | Gemini => GeminiProvider.pricing
  | Claude => ClaudeProvider.pricing
  end.

Definition calculate_cost_of (c : provider_class) : Z → string → result py_exn Q :=
  match c with
  | OpenAI => OpenAIProvider.calculate_cost
  | Gemini => GeminiProvider.calculate_cost
  | Claude => ClaudeProvider.calculate_cost
  end.

(** The model each class prices an unknown model name with. *)
Definition default_model_of (c : provider_class) : string :=
  match c with
  | OpenAI => "gpt-4"
  | Gemini => "gemini-pro"
  | Claude => "claude-3-sonnet-20240229"
  end.

(** What [priced] returns at a price entry [p]. *)
Definition cost_at (p : price) (tokens : Z) : Q :=
  round6 ((inject_Z (int (inject_Z tokens * 0.75)) / 1000) * input p +
          (inject_Z (int (inject_Z tokens * 0.25)) / 1000) * output p)%Q.


Module LLMFactory.
Definition _providers : list string := ["openai"; "gemini"; "claude"].

Definition join_comma (l : list string) : string := String.concat ", " l.

(** [world_vendor] gives each provider name its vendor service. *)
Definition get_provider (getenv : string → option string)
    (world_vendor : string → vendor) (name : string)
  : result py_exn LLMProvider :=
  if String.eqb name "openai" then OpenAIProvider.new getenv (world_vendor name)
  else if String.eqb name "gemini" then GeminiProvider.new getenv (world_vendor name)
  else if String.eqb name "claude" then ClaudeProvider.new getenv (world_vendor name)
  else Raise (ValueError ("Unknown LLM provider: " ++ name ++ ". " ++
                          "Available providers: " ++ join_comma _providers)).
End LLMFactory.


#[global] Instance result_ret {E} : MRet (result E) := λ A a, Ok a.
#[global] Instance result_mbind {E} : MBind (result E) := λ A B k r, result_bind r k.

(** ** Libraries outside the repository *)

(** One element of [error.path]: a property name or an array index. *)
Inductive path_elem :=
| Key (s : string)
| Index (i : Z).

Definition str_path_elem (p : path_elem) : string :=
  match p with
  | Key s => s
  | Index i => pretty i
  end.

(** A [jsonschema.ValidationError]. *)
Record ValidationError := {
  path : list path_elem;
  message : string
}.

(** [iter_errors schema instance] is
    [list(Draft7Validator(schema).iter_errors(instance))];
    [str_format template kwargs] is [template.format( **kwargs)]. *)
Class Libraries := {
  iter_errors : gmap string json → gmap string json →
                result py_exn (list ValidationError);
  str_format : string → gmap string json → result py_exn string
}.

(** ** [app/validators.py] *)

Definition nl : string := String (Ascii.ascii_of_nat 10) EmptyString.

(** [sub in s] on strings. *)
Fixpoint str_contains (sub s : string) : bool :=
  String.prefix sub s ||
  match s with
  | EmptyString => false
  | String _ s' => str_contains sub s'
  end.

Definition is_JStr (k : string) (x : json) : bool :=
  match x with
  | JStr s => String.eqb s k
  | _ => false
  end.

(** [k in x] for a string [k] and any decoded JSON value [x]. *)
Definition py_contains (k : string) (x : json) : result py_exn bool :=
  match x with
  | JObj m => Ok (bool_decide (is_Some (m !! k)))
  | JArr l => Ok (existsb (is_JStr k) l)
  | JStr s => Ok (str_contains k s)
  | JNull => Raise (TypeError "argument of type 'NoneType' is not iterable")
  | JBool _ => Raise (TypeError "argument of type 'bool' is not iterable")
  | JInt _ => Raise (TypeError "argument of type 'int' is not iterable")
  | JFloat _ => Raise (TypeError "argument of type 'float' is not iterable")
  end.

(** [x[k]] for a string [k]. *)
Definition py_getitem (x : json) (k : string) : result py_exn json :=
  match x with
  | JObj m =>
      match m !! k with
      | Some v => Ok v
      | None => Raise (KeyError k)
      end
  | JArr _ => Raise (TypeError "list indices must be integers or slices, not str")
  | JStr _ => Raise (TypeError "string indices must be integers")
  | JNull => Raise (TypeError "'NoneType' object is not subscriptable")
  | JBool _ => Raise (TypeError "'bool' object is not subscriptable")
  | JInt _ => Raise (TypeError "'int' object is not subscriptable")
  | JFloat _ => Raise (TypeError "'float' object is not subscriptable")
  end.

(** [schema.get("properties", {}).items()] needs a dict. *)
Definition get_properties (schema : gmap string json)
  : result py_exn (gmap string json) :=
  match schema !! "properties" with
  | None => Ok ∅
  | Some (JObj properties) => Ok properties
  | Some _ => Raise (AttributeError "object has no attribute 'items'")
  end.

(** The body of the enrichment loop (lines 50-52); [and] does not look at
    [prop_schema] when [prop_name] is already there. *)
Definition enrich_step (prop_name : string) (prop_schema : json)
    (acc : result py_exn (gmap string json)) : result py_exn (gmap string json) :=
  enriched ← acc;
  match enriched !! prop_name with
  | Some _ => Ok enriched
  | None =>
      has_default ← py_contains "default" prop_schema;
      if has_default : bool then
        d ← py_getitem prop_schema "default";
        Ok (<[prop_name := d]> enriched)
      else Ok enriched
  end.

Definition error_line (error : ValidationError) : string :=
  let path :=
    match path error with
    | [] => "root"
    | ps => String.concat "." (map str_path_elem ps)
    end in
  path ++ ": " ++ message error.

Definition validate_variables_against_schema `{Libraries}
    (variables schema : gmap string json) : result py_exn (gmap string json) :=
  if bool_decide (size schema = 0%nat) then
    (* Pas de schéma = pas de validation *)
    Ok variables
  else
    errors ← iter_errors schema variables;
    match errors with
    | _ :: _ =>
        let error_messages := map error_line errors in
        Raise (ValueError ("Variable validation failed:" ++ nl ++
                           String.concat nl error_messages))
    | [] =>
        (* Enrichir avec les valeurs par défaut *)
        let enriched := variables in
        properties ← get_properties schema;
        map_fold enrich_step (Ok enriched) properties
    end.

(** The names a schema lists under [required]. *)
Definition required_names (schema : gmap string json) : list string :=
  match schema !! "required" with
  | Some (JArr l) =>
      omap (λ x, match x with JStr s => Some s | _ => None end) l
  | _ => []
  end.

(** [prop_schema] carries the default [d]. *)
Definition carries_default (prop_schema d : json) : Prop :=
  ∃ m, prop_schema = JObj m ∧ m !! "default" = Some d.


(** A validator for the keyword [required] alone, with the message of
    [jsonschema]; it reports every listed name the instance lacks. *)
Definition required_errors (schema variables : gmap string json)
  : list ValidationError :=
  map (λ name, {| path := []; message := "'" ++ name ++ "' is a required property" |})
      (filter (λ name, variables !! name = None) (required_names schema)).

(** [str(x)] for the values a template is filled with in the examples;
    floats, lists and dicts are outside this fragment. *)
Definition str_json (x : json) : string :=
  match x with
  | JStr s => s
  | JInt n => pretty n
  | JBool true => "True"
  | JBool false => "False"
  | JNull => "None"
  | _ => "?"
  end.

Inductive format_state :=
| Text
| AfterOpen
| InField (name : string)
| AfterClose.

(** [template.format( **kwargs)] for templates whose replacement fields are
    plain names: a scanner over the template that copies text, unescapes
    doubled braces and replaces [{name}] by [str(kwargs[name])]. *)
Fixpoint simple_format_from (st : format_state) (template : string)
    (kwargs : gmap string json) : result py_exn string :=
  match template with
  | EmptyString =>
      match st with
      | Text => Ok ""
      | AfterOpen => Raise (ValueError "Single '{' encountered in format string")
      | InField _ => Raise (ValueError "expected '}' before end of string")
      | AfterClose => Raise (ValueError "Single '}' encountered in format string")
      end
  | String c rest =>
      let emit (s : string) (st' : format_state) :=
        out ← simple_format_from st' rest kwargs; Ok (s ++ out) in
      match st with
      | Text =>
          if Ascii.eqb c "{"%char then simple_format_from AfterOpen rest kwargs
          else if Ascii.eqb c "}"%char then simple_format_from AfterClose rest kwargs
          else emit (String c EmptyString) Text
      | AfterOpen =>
          if Ascii.eqb c "{"%char then emit "{" Text
          else if Ascii.eqb c "}"%char then
            Raise (IndexError "Replacement index 0 out of range for positional args tuple")
          else simple_format_from (InField (String c EmptyString)) rest kwargs
      | InField name =>
          if Ascii.eqb c "}"%char then
            match kwargs !! name with
            | Some v => emit (str_json v) Text
            | None => Raise (KeyError name)
            end
          else simple_format_from (InField (name ++ String c EmptyString)) rest kwargs
      | AfterClose =>
          if Ascii.eqb c "}"%char then emit "}" Text
          else Raise (ValueError "Single '}' encountered in format string")
      end
  end.

Definition simple_format (template : string) (kwargs : gmap string json)
  : result py_exn string :=
  simple_format_from Text template kwargs.

(** The libraries the examples run with. *)
Definition example_libraries : Libraries := {|
  iter_errors schema variables := Ok (required_errors schema variables);
  str_format := simple_format
|}.

(** ** [app/schemas.py] and [app/models.py] *)

(** How a field of a request body arrives: absent, [null], or a value. *)
Inductive field (A : Type) :=
| Omitted
| Null
| Given (a : A).
Arguments Omitted {A}.
Arguments Null {A}.
Arguments Given {A} a.

(** A field declared [Optional[T] = d]: the default replaces an absent
    field only; an explicit [null] stays [None]. *)
Definition optional_default {A} (d : A) (f : field A) : option A :=
  match f with
  | Omitted => Some d
  | Null => None
  | Given a => Some a
  end.

Module schemas.
Record PromptExecutionRequest := {
  variables : gmap string json;
  llm_provider : option string;
  llm_model : option string;
  temperature : option Q;
  max_tokens : option Z
}.

(** The request the route receives for a body with the given fields;
    [variables] has [default_factory=dict] and [max_tokens] defaults to
    [None]. *)
Definition parse (variables : option (gmap string json))
    (llm_provider llm_model : field string)
    (temperature : field Q) (max_tokens : field Z) : PromptExecutionRequest :=
  {| variables := default ∅ variables;
     llm_provider := optional_default "openai" llm_provider;
     llm_model := optional_default "gpt-4" llm_model;
     temperature := optional_default 0.7%Q temperature;
     max_tokens := match max_tokens with Given n => Some n | _ => None end |}.

Record PromptExecutionResponse := {
  execution_id : Z;
  prompt_id : Z;
  output : string;
  resp_llm_provider : string;
  resp_llm_model : string;
  tokens_used : Z;
  cost : Q;
  execution_time : Q;
  status : string
}.
End schemas.

(** The columns the route reads or writes; timestamps are left out. *)
Module models.
Record ExpertPrompt := {
  template : string;
  variables_schema : gmap string json
}.

Record PromptExecutionHistory := {
  id : Z;
  prompt_id : Z;
  user_id : Z;
  variables : gmap string json;
  output : option string;
  llm_provider : string;
  llm_model : string;
  tokens_used : Z;
  cost : Q;
  execution_time : Q;
  status : string;
  error_message : option string
}.
End models.

(** ** [app/main.py] *)

(** What the route can raise: [HTTPException] or any other exception. *)
Inductive exn :=
| HTTPException (status_code : Z) (detail : string)
| Py (e : py_exn).

(** The process environment and the vendor behind each provider name. *)
Record World := {
  getenv : string → option string;
  vendors : string → vendor
}.

(** The metrics, the two tables the route touches, and the clock.
    A counter maps a tuple of label values to its value; the histogram
    keeps the observations of each label tuple. *)
Record state := {
  prompt_executions_total : gmap (Z * string * string) Q;
  prompt_execution_duration : gmap (Z * string) (list Q);
  llm_tokens_used : gmap (string * string) Q;
  llm_cost_total : gmap (string * string) Q;
  active_executions : Z;
  expert_prompts : gmap Z models.ExpertPrompt;
  prompt_execution_history : list models.PromptExecutionHistory;
  now : Q
}.

Definition M (A : Type) : Type := state → result exn A * state.

Definition ret {A} (a : A) : M A := λ s, (Ok a, s).

Definition bind {A B} (m : M A) (k : A → M B) : M B :=
  λ s, match m s with
       | (Ok a, s') => k a s'
       | (Raise e, s') => (Raise e, s')
       end.

#[global] Instance M_ret : MRet M := @ret.
#[global] Instance M_mbind : MBind M := λ A B k m, bind m k.

Definition raise {A} (e : exn) : M A := λ s, (Raise e, s).

Definition gets {A} (f : state → A) : M A := λ s, (Ok (f s), s).

Definition modify (f : state → state) : M unit := λ s, (Ok tt, f s).

(** A call that raises no [HTTPException]. *)
Definition lift {A} (r : result py_exn A) : M A :=
  match r with
  | Ok a => ret a
  | Raise e => raise (Py e)
  end.

(** [try: body / except HTTPException: raise / except Exception as e: handler]. *)
Definition try_except {A} (body : M A) (handler : py_exn → M A) : M A :=
  λ s, match body s with
       | (Ok a, s') => (Ok a, s')
       | (Raise (HTTPException c d), s') => (Raise (HTTPException c d), s')
       | (Raise (Py e), s') => handler e s'
       end.

(** [try: body / finally: final]. *)
Definition try_finally {A} (body : M A) (final : M unit) : M A :=
  λ s, match body s with
       | (r, s') =>
           match final s' with
           | (Ok _, s'') => (r, s'')
           | (Raise e, s'') => (Raise e, s'')
           end
       end.

(** [try: r / except ValueError as e: raise HTTPException(400, str(e))]. *)
Definition except_ValueError {A} (r : result py_exn A) : M A :=
  match r with
  | Ok a => ret a
  | Raise (ValueError msg) => raise (HTTPException 400 (str_exn (ValueError msg)))
  | Raise e => raise (Py e)
  end.

(** [try: r / except KeyError as e: raise HTTPException(400, ...)]. *)
Definition except_KeyError {A} (r : result py_exn A) : M A :=
  match r with
  | Ok a => ret a
  | Raise (KeyError k) =>
      raise (HTTPException 400 ("Missing variable in template: " ++ str_exn (KeyError k)))
  | Raise e => raise (Py e)
  end.

(** [Counter.labels(...).inc(amount)]: a negative amount is refused. *)
Definition counter_inc `{Countable K} (c : gmap K Q) (labels : K) (amount : Q)
  : result py_exn (gmap K Q) :=
  if Qle_bool 0 amount
  then Ok (<[labels := (default 0 (c !! labels) + amount)%Q]> c)
  else Raise (ValueError "Counters can only be incremented by non-negative amounts.").

(** [Histogram.labels(...).observe(amount)]. *)
Definition histogram_observe `{Countable K} (h : gmap K (list Q)) (labels : K)
    (amount : Q) : gmap K (list Q) :=
  <[labels := (default [] (h !! labels) ++ [amount])%list]> h.

Definition set_prompt_executions_total (c : gmap (Z * string * string) Q) (s : state) :=
  {| prompt_executions_total := c;
     prompt_execution_duration := prompt_execution_duration s;
     llm_tokens_used := llm_tokens_used s;
     llm_cost_total := llm_cost_total s;
     active_executions := active_executions s;
     expert_prompts := expert_prompts s;
     prompt_execution_history := prompt_execution_history s;
     now := now s |}.

Definition set_prompt_execution_duration (h : gmap (Z * string) (list Q)) (s : state) :=
  {| prompt_executions_total := prompt_executions_total s;
     prompt_execution_duration := h;
     llm_tokens_used := llm_tokens_used s;
     llm_cost_total := llm_cost_total s;
     active_executions := active_executions s;
     expert_prompts := expert_prompts s;
     prompt_execution_history := prompt_execution_history s;
     now := now s |}.

Definition set_llm_tokens_used (c : gmap (string * string) Q) (s : state) :=
  {| prompt_executions_total := prompt_executions_total s;
     prompt_execution_duration := prompt_execution_duration s;
     llm_tokens_used := c;
     llm_cost_total := llm_cost_total s;
     active_executions := active_executions s;
     expert_prompts := expert_prompts s;
     prompt_execution_history := prompt_execution_history s;
     now := now s |}.

Definition set_llm_cost_total (c : gmap (string * string) Q) (s : state) :=
  {| prompt_executions_total := prompt_executions_total s;
     prompt_execution_duration := prompt_execution_duration s;
     llm_tokens_used := llm_tokens_used s;
     llm_cost_total := c;
     active_executions := active_executions s;
     expert_prompts := expert_prompts s;
     prompt_execution_history := prompt_execution_history s;
     now := now s |}.

Definition set_active_executions (g : Z) (s : state) :=
  {| prompt_executions_total := prompt_executions_total s;
     prompt_execution_duration := prompt_execution_duration s;
     llm_tokens_used := llm_tokens_used s;
     llm_cost_total := llm_cost_total s;
     active_executions := g;
     expert_prompts := expert_prompts s;
     prompt_execution_history := prompt_execution_history s;
     now := now s |}.

Definition set_prompt_execution_history
    (t : list models.PromptExecutionHistory) (s : state) :=
  {| prompt_executions_total := prompt_executions_total s;
     prompt_execution_duration := prompt_execution_duration s;
     llm_tokens_used := llm_tokens_used s;
     llm_cost_total := llm_cost_total s;
     active_executions := active_executions s;
     expert_prompts := expert_prompts s;
     prompt_execution_history := t;
     now := now s |}.

Definition set_now (t : Q) (s : state) :=
  {| prompt_executions_total := prompt_executions_total s;
     prompt_execution_duration := prompt_execution_duration s;
     llm_tokens_used := llm_tokens_used s;
     llm_cost_total := llm_cost_total s;
     active_executions := active_executions s;
     expert_prompts := expert_prompts s;
     prompt_execution_history := prompt_execution_history s;
     now := t |}.

(** [time.time()]. *)
Definition time_time : M Q := gets now.

(** [active_executions.inc()] and [active_executions.dec()]. *)
Definition gauge_inc : M unit :=
  modify (λ s, set_active_executions (active_executions s + 1)%Z s).

Definition gauge_dec : M unit :=
  modify (λ s, set_active_executions (active_executions s - 1)%Z s).

(** [db.query(models.ExpertPrompt).filter(... == prompt_id).first()]. *)
Definition db_query_prompt (prompt_id : Z) : M (option models.ExpertPrompt) :=
  gets (λ s, expert_prompts s !! prompt_id).

(** [db.add(row); db.commit()], after which the row has its primary key:
    the table only grows, so the next key is its length plus one. *)
Definition db_add_commit (row : Z → models.PromptExecutionHistory)
  : M models.PromptExecutionHistory :=
  λ s, let table := prompt_execution_history s in
       let r := row (Z.of_nat (length table) + 1)%Z in
       (Ok r, set_prompt_execution_history (table ++ [r])%list s).

(** [await llm_provider.execute(...)]: the clock advances by the time the
    vendor took, whether it answered or failed. *)
Definition await_execute (llm_provider : LLMProvider) (prompt model : string)
    (temperature : option Q) (max_tokens : option Z) : M execution_result :=
  λ s, match execute llm_provider prompt model temperature max_tokens with
       | (r, dt) => lift r (set_now (now s + dt)%Q s)
       end.

Definition inc_prompt_executions_total (labels : Z * string * string) : M unit :=
  c ← gets prompt_executions_total;
  c' ← lift (counter_inc c labels 1);
  modify (set_prompt_executions_total c').

Definition observe_prompt_execution_duration (labels : Z * string) (x : Q) : M unit :=
  modify (λ s, set_prompt_execution_duration
                 (histogram_observe (prompt_execution_duration s) labels x) s).

Definition inc_llm_tokens_used (labels : string * string) (amount : Q) : M unit :=
  c ← gets llm_tokens_used;
  c' ← lift (counter_inc c labels amount);
  modify (set_llm_tokens_used c').

Definition inc_llm_cost_total (labels : string * string) (amount : Q) : M unit :=
  c ← gets llm_cost_total;
  c' ← lift (counter_inc c labels amount);
  modify (set_llm_cost_total c').

Section Route.
Context `{Libraries} (w : World).
Variables (prompt_id : Z) (execution_request : schemas.PromptExecutionRequest)
          (current_user_id : Z).

(** The row the [try] block writes (lines 361-372), given its primary key. *)
Definition success_history (id : Z) (validated_variables : gmap string json)
    (execution_result : execution_result) (llm_provider_name llm_model_name : string)
    (cost duration : Q) : models.PromptExecutionHistory :=
  {| models.id := id;
     models.prompt_id := prompt_id;
     models.user_id := current_user_id;
     models.variables := validated_variables;
     models.output := Some (res_output execution_result);
     models.llm_provider := llm_provider_name;
     models.llm_model := llm_model_name;
     models.tokens_used := res_tokens_used execution_result;
     models.cost := cost;
     models.execution_time := duration;
     models.status := "success";
     models.error_message := None |}.

(** The body of the [try] (lines 287-387). *)
Definition execute_prompt_try (start_time : Q) : M schemas.PromptExecutionResponse :=
  (* Récupérer le prompt *)
  prompt ← db_query_prompt prompt_id;
  prompt ← match prompt with
            | Some p => ret p
            | None => raise (HTTPException 404 "Expert prompt not found")
            end;
  (* Valider les variables contre le schéma *)
  validated_variables ←
    except_ValueError
      (validate_variables_against_schema
         (schemas.variables execution_request) (models.variables_schema prompt));
  (* Récupérer le provider LLM (ou utiliser celui par défaut) *)
  let llm_provider_name := py_or (schemas.llm_provider execution_request) "openai" in
  let llm_model_name := py_or (schemas.llm_model execution_request) "gpt-4" in
  (* Obtenir le provider LLM *)
  llm_provider ←
    except_ValueError (LLMFactory.get_provider (getenv w) (vendors w) llm_provider_name);
  (* Injecter les variables dans le template *)
  filled_prompt ←
    except_KeyError (str_format (models.template prompt) validated_variables);
  (* Exécuter le prompt avec le LLM *)
  execution_result ←
    await_execute llm_provider filled_prompt llm_model_name
      (schemas.temperature execution_request) (schemas.max_tokens execution_request);
  (* Calculer le coût *)
  cost ← lift (calculate_cost llm_provider (res_tokens_used execution_result)
                 llm_model_name);
  (* Enregistrer les métriques *)
  t ← time_time;
  let duration := (t - start_time)%Q in
  inc_prompt_executions_total (prompt_id, llm_provider_name, "success");;
  observe_prompt_execution_duration (prompt_id, llm_provider_name) duration;;
  inc_llm_tokens_used (llm_provider_name, llm_model_name)
    (inject_Z (res_tokens_used execution_result));;
  inc_llm_cost_total (llm_provider_name, llm_model_name) cost;;
  (* Enregistrer l'historique d'exécution *)
  execution_history ← db_add_commit (λ id,
    success_history id validated_variables execution_result
      llm_provider_name llm_model_name cost duration);
  ret {| schemas.execution_id := models.id execution_history;
         schemas.prompt_id := prompt_id;
         schemas.output := res_output execution_result;
         schemas.resp_llm_provider := llm_provider_name;
         schemas.resp_llm_model := llm_model_name;
         schemas.tokens_used := res_tokens_used execution_result;
         schemas.cost := cost;
         schemas.execution_time := duration;
         schemas.status := "success" |}.

(** The row the handler writes (lines 401-413), given its primary key and
    [time.time() - start_time]. *)
Definition error_history (id : Z) (elapsed : Q) (e : py_exn)
  : models.PromptExecutionHistory :=
  {| models.id := id;
     models.prompt_id := prompt_id;
     models.user_id := current_user_id;
     models.variables := schemas.variables execution_request;
     models.output := None;
     models.llm_provider := py_or (schemas.llm_provider execution_request) "unknown";
     models.llm_model := py_or (schemas.llm_model execution_request) "unknown";
     models.tokens_used := 0;
     models.cost := 0;
     models.execution_time := elapsed;
     models.status := "error";
     models.error_message := Some (str_exn e) |}.

(** The handler [except Exception as e] (lines 391-417). *)
Definition execute_prompt_except (start_time : Q) (e : py_exn)
  : M schemas.PromptExecutionResponse :=
  inc_prompt_executions_total
    (prompt_id, py_or (schemas.llm_provider execution_request) "unknown", "error");;
  (* Enregistrer l'échec dans l'historique *)
  t ← time_time;
  db_add_commit (λ id, error_history id (t - start_time)%Q e);;
  raise (HTTPException 500 ("Execution failed: " ++ str_exn e)).

Definition execute_prompt : M schemas.PromptExecutionResponse :=
  gauge_inc;;
  start_time ← time_time;
  try_finally
    (try_except (execute_prompt_try start_time) (execute_prompt_except start_time))
    gauge_dec.

End Route.

(** ** A world to run the route in *)

(** The first prompt has a required variable and one with a default; the
    second has no schema and a template that needs a variable. *)
Definition example_schema : gmap string json :=
  {[ "properties" :=
       JObj {[ "name" := JObj {[ "type" := JStr "string" ]};
               "tone" := JObj {[ "type" := JStr "string";
                                 "default" := JStr "formal" ]} ]};
     "required" := JArr [JStr "name"] ]}.

Definition example_prompt : models.ExpertPrompt :=
  {| models.template := "Greet {name} in a {tone} tone";
     models.variables_schema := example_schema |}.

Definition example_variables : gmap string json := {[ "name" := JStr "Ada" ]}.

Definition example_enriched : gmap string json :=
  <["tone" := JStr "formal"]> example_variables.

Definition example_state : state :=
  {| prompt_executions_total := ∅;
     prompt_execution_duration := ∅;
     llm_tokens_used := ∅;
     llm_cost_total := ∅;
     active_executions := 0;
     expert_prompts :=
       {[ 1%Z := example_prompt;
          2%Z := {| models.template := "Reply to {who}";
                    models.variables_schema := ∅ |} ]};
     prompt_execution_history := [];
     now := 100 |}.

(** Every key is set; the vendor answers in two seconds with 1000 tokens. *)
Definition example_world : World :=
  {| getenv := λ _, Some "sk-test";
     vendors := λ _ prompt _ _ _, (Ok ("Dear " ++ prompt, 1000%Z), 2%Q) |}.

(** The vendor times out after three seconds. *)
Definition failing_world : World :=
  {| getenv := λ _, Some "sk-test";
     vendors := λ _ _ _ _ _, (Raise (APIError "Request timed out."), 3%Q) |}.

(** No key is set. *)
Definition unconfigured_world : World :=
  {| getenv := λ _, None;
     vendors := vendors example_world |}.

(** A request that names neither provider nor model. *)
Definition example_request : schemas.PromptExecutionRequest :=
  schemas.parse (Some example_variables) Omitted Omitted Omitted Omitted.

(** A request whose provider and model are empty strings. *)
Definition blank_request : schemas.PromptExecutionRequest :=
  schemas.parse (Some example_variables) (Given "") (Given "") Omitted Omitted.

(** A request that lacks the required variable. *)
Definition incomplete_request : schemas.PromptExecutionRequest :=
  schemas.parse (Some ∅) Omitted Omitted Omitted Omitted.

(** The provider object [failing_world] yields for "openai". *)
Definition failing_openai : LLMProvider :=
  Build_LLMProvider (vendor_execute (vendors failing_world "openai"))
    OpenAIProvider.calculate_cost.

(** ** [app/validators.py]: the helpers beside the validator *)

(** Truthiness of a decoded JSON value. *)
Definition truthy (x : json) : bool :=
  match x with
  | JNull => false
  | JBool b => b
  | JInt n => negb (n =? 0)%Z
  | JFloat q => negb (Qnum q =? 0)%Z
  | JStr s => negb (String.eqb s "")
  | JArr l => match l with [] => false | _ => true end
  | JObj m => negb (bool_decide (size m = 0%nat))
  end.

(** [x[0]]: the head of a list, the first character of a string; a dict
    decoded from JSON has no integer key ([KeyError] of the key 0). *)
Definition py_index0 (x : json) : result py_exn json :=
  match x with
  | JArr (y :: _) => Ok y
  | JArr [] => Raise (IndexError "list index out of range")
  | JStr (String c _) => Ok (JStr (String c EmptyString))
  | JStr EmptyString => Raise (IndexError "string index out of range")
  | JObj _ => Raise (KeyError "0")
  | JNull => Raise (TypeError "'NoneType' object is not subscriptable")
  | JBool _ => Raise (TypeError "'bool' object is not subscriptable")
  | JInt _ => Raise (TypeError "'int' object is not subscriptable")
  | JFloat _ => Raise (TypeError "'float' object is not subscriptable")
  end.

(** [x.get(k, d)]: only a dict has [get]. *)
Definition py_get (x : json) (k : string) (d : json) : result py_exn json :=
  match x with
  | JObj m => Ok (default d (m !! k))
  | _ => Raise (AttributeError "object has no attribute 'get'")
  end.

(** The example picked by the type of a property (lines 79-89); a type
    outside the six names picks none. *)
Definition example_of_type (prop_name : string) (prop_type : json) : option json :=
  match prop_type with
  | JStr t =>
      if String.eqb t "string" then Some (JStr ("example_" ++ prop_name))
      else if String.eqb t "number" || String.eqb t "integer" then Some (JInt 0)
      else if String.eqb t "boolean" then Some (JBool false)
      else if String.eqb t "array" then Some (JArr [])
      else if String.eqb t "object" then Some (JObj ∅)
      else None
  | _ => None
  end.

(** What one round of the loop assigns to [examples[prop_name]], if
    anything (lines 71-89). *)
Definition example_of (prop_name : string) (prop_schema : json)
  : result py_exn (option json) :=
  has_example ← py_contains "example" prop_schema;
  if has_example : bool then
    x ← py_getitem prop_schema "example"; Ok (Some x)
  else
    has_default ← py_contains "default" prop_schema;
    if has_default : bool then
      x ← py_getitem prop_schema "default"; Ok (Some x)
    else
      has_enum ← py_contains "enum" prop_schema;
      use_enum ← (if has_enum : bool
                   then enum ← py_getitem prop_schema "enum"; Ok (truthy enum)
                   else Ok false);
      if use_enum : bool then
        enum ← py_getitem prop_schema "enum";
        x ← py_index0 enum; Ok (Some x)
      else
        (* Générer une valeur par défaut selon le type *)
        prop_type ← py_get prop_schema "type" (JStr "string");
        Ok (example_of_type prop_name prop_type).

Definition example_step (prop_name : string) (prop_schema : json)
    (acc : result py_exn (gmap string json)) : result py_exn (gmap string json) :=
  examples ← acc;
  x ← example_of prop_name prop_schema;
  Ok (match x with
      | Some v => <[prop_name := v]> examples
      | None => examples
      end).

Definition generate_example_variables (schema : gmap string json)
  : result py_exn (gmap string json) :=
  let examples := ∅ in
  properties ← get_properties schema;
  map_fold example_step (Ok examples) properties.

Definition get_variable_description (schema : gmap string json)
    (variable_name : string) : result py_exn json :=
  let properties := default (JObj ∅) (schema !! "properties") in
  declared ← py_contains variable_name properties;
  if declared : bool then
    prop_schema ← py_getitem properties variable_name;
    py_get prop_schema "description" (JStr "")
  else Ok (JStr "").

(** What the enrichment loop has established once it has visited the
    properties [visited] without raising: caller-supplied bindings are
    kept; every binding comes from the caller or is the default of a
    visited property the caller omitted; and each such property is bound
    to its default, or has none and stays unbound. *)
Definition enriched_exactly (variables : gmap string json)
    (acc : result py_exn (gmap string json)) (visited : gmap string json) : Prop :=
  ∀ enriched, acc = Ok enriched →
    (∀ k x, variables !! k = Some x → enriched !! k = Some x) ∧
    (∀ k x, enriched !! k = Some x →
            variables !! k = Some x ∨
            (variables !! k = None ∧
             ∃ ps, visited !! k = Some ps ∧ carries_default ps x)) ∧
    (∀ k ps, visited !! k = Some ps → variables !! k = None →
             (∃ d, carries_default ps d ∧ enriched !! k = Some d) ∨
             (py_contains "default" ps = Ok false ∧ enriched !! k = None)).

(** A sub-schema on which ["default" in prop_schema] raises: it is not a
    dict, a list or a string. *)
Definition not_a_container (prop_schema : json) : Prop :=
  match prop_schema with
  | JNull | JBool _ | JInt _ | JFloat _ => True
  | _ => False
  end.

(** A schema whose declared property [flag] is the boolean schema [true]. *)
Definition boolean_schema : gmap string json :=
  {[ "properties" := JObj {[ "flag" := JBool true ]} ]}.

(** A schema with one property per way of picking an example. *)
Definition catalogue_schema : gmap string json :=
  {[ "properties" :=
       JObj {[ "city" := JObj {[ "example" := JStr "Paris"; "default" := JStr "Rome" ]};
               "tone" := JObj {[ "default" := JStr "formal" ]};
               "size" := JObj {[ "enum" := JArr [JStr "S"; JStr "M"] ]};
               "count" := JObj {[ "type" := JStr "integer" ]} ]} ]}.

Definition catalogue_examples : gmap string json :=
  {[ "city" := JStr "Paris"; "tone" := JStr "formal"; "size" := JStr "S";
     "count" := JInt 0 ]}.

(** ** [app/llm_providers.py]: the rest of the factory *)

(** [LLMFactory.list_providers()]. *)
Definition list_providers : list string := LLMFactory._providers.

(** The environment variable the class registered under [name] reads in
    its [__init__]. *)
Definition api_key_variable (name : string) : string :=
  if String.eqb name "openai" then "OPENAI_API_KEY"
  else if String.eqb name "gemini" then "GEMINI_API_KEY"
  else "ANTHROPIC_API_KEY".

(** ** [app/main.py]: reading an execution back *)

(** The route [get_execution] (lines 446-461): the row with this primary
    key that belongs to the current user, or 404. *)
Definition get_execution (execution_id current_user_id : Z)
  : M models.PromptExecutionHistory :=
  execution ← gets (λ s,
    head (filter (λ r, models.id r = execution_id ∧
                       models.user_id r = current_user_id)
            (prompt_execution_history s)));
  match execution with
  | Some r => ret r
  | None => raise (HTTPException 404 "Execution not found")
  end.

(** The primary keys of a table that only the route has written: the row
    at position [i] has key [i + 1]. *)
Definition keyed_by_position (table : list models.PromptExecutionHistory) : Prop :=
  ∀ i r, table !! i = Some r → models.id r = (Z.of_nat i + 1)%Z.

(** A prompt whose schema declares a boolean sub-schema. *)
Definition flag_prompt : models.ExpertPrompt :=
  {| models.template := "Check";
     models.variables_schema := boolean_schema |}.

Definition flag_state : state :=
  {| prompt_executions_total := ∅;
     prompt_execution_duration := ∅;
     llm_tokens_used := ∅;
     llm_cost_total := ∅;
     active_executions := 0;
     expert_prompts := {[ 1%Z := flag_prompt ]};
     prompt_execution_history := [];
     now := 100 |}.

Definition empty_request : schemas.PromptExecutionRequest :=
  schemas.parse None Omitted Omitted Omitted Omitted.

(** The provider object [example_world] yields for "openai". *)
Definition example_openai : LLMProvider :=
  Build_LLMProvider (vendor_execute (vendors example_world "openai"))
    OpenAIProvider.calculate_cost.

(** A history with the one row of a failed call by user 7. *)
Definition recorded_row : models.PromptExecutionHistory :=
  error_history 1 example_request 7 1 3 (APIError "Request timed out.").

Definition recorded_state : state :=
  set_prompt_execution_history [recorded_row] example_state.

(** ** [app/main.py]: registration and login *)

(** The columns of [models.User] the two routes read or write. *)
Module users.
Record User := {
  id : Z;
  email : string;
  username : string;
  hashed_password : string;
  is_active : bool;
  is_admin : bool
}.
End users.

(** [schemas.UserCreate] and [schemas.UserLogin]. *)
Record UserCreate := {
  create_email : string;
  create_username : string;
  create_password : string
}.

Record UserLogin := {
  login_email : string;
  login_password : string
}.

(** [passlib] and [jose], outside the repository: the hash [pwd_context]
    returns for a password, its verification of a password against a hash,
    and the token [jwt.encode] makes of a set of claims with the
    application's key and algorithm. *)
Record AuthLibraries := {
  pwd_hash : string → string;
  pwd_verify : string → string → bool;
  jwt_encode : gmap string json → string
}.

(** The table of users and [datetime.utcnow()], in seconds. *)
Record auth_state := {
  users_table : list users.User;
  utcnow : Q
}.

(** What the two routes raise: an [HTTPException], or the database's
    [IntegrityError], which they do not catch. *)
Inductive auth_exn :=
| AuthHTTPException (status_code : Z) (detail : string)
| IntegrityError (constraint : string).

Definition ACCESS_TOKEN_EXPIRE_MINUTES : Q := 30.

(** [db.query(models.User).filter(models.User.email == email).first()]. *)
Definition query_user_by_email (email : string) (table : list users.User)
  : option users.User :=
  head (filter (λ u, users.email u = email) table).

(** [create_access_token]: [expires_delta] is in seconds, and a zero
    [timedelta] is falsy like [None]. *)
Definition create_access_token (L : AuthLibraries) (data : gmap string json)
    (expires_delta : option Q) (s : auth_state) : string :=
  let to_encode := data in
  let expire :=
    match expires_delta with
    | Some d => if Qeq_bool d 0 then (utcnow s + 15 * 60)%Q else (utcnow s + d)%Q
    | None => (utcnow s + 15 * 60)%Q
    end in
  let to_encode := <["exp" := JFloat expire]> to_encode in
  jwt_encode L to_encode.

(** The route [register] (lines 138-154). [db.commit()] enforces the
    unique constraint on [username]; the one on [email] cannot fail after
    the check. The table only grows, so the next key is its length plus
    one. *)
Definition register (L : AuthLibraries) (user : UserCreate) (s : auth_state)
  : result auth_exn users.User * auth_state :=
  match query_user_by_email (create_email user) (users_table s) with
  | Some _ => (Raise (AuthHTTPException 400 "Email already registered"), s)
  | None =>
      let hashed_password := pwd_hash L (create_password user) in
      let db_user :=
        {| users.id := Z.of_nat (length (users_table s)) + 1;
           users.email := create_email user;
           users.username := create_username user;
           users.hashed_password := hashed_password;
           users.is_active := true;
           users.is_admin := false |} in
      if bool_decide (create_username user ∈ map users.username (users_table s))
      then (Raise (IntegrityError "users.username"), s)
      else (Ok db_user,
            {| users_table := (users_table s ++ [db_user])%list; utcnow := utcnow s |})
  end.

(** The token response of [login]. *)
Record Token := {
  access_token : string;
  token_type : string
}.

(** The route [login] (lines 156-171). *)
Definition login (L : AuthLibraries) (user : UserLogin) (s : auth_state)
  : result auth_exn Token * auth_state :=
  match query_user_by_email (login_email user) (users_table s) with
  | None => (Raise (AuthHTTPException 401 "Incorrect email or password"), s)
  | Some db_user =>
      if negb (pwd_verify L (login_password user) (users.hashed_password db_user))
      then (Raise (AuthHTTPException 401 "Incorrect email or password"), s)
      else
        let access_token_expires := (ACCESS_TOKEN_EXPIRE_MINUTES * 60)%Q in
        let access_token :=
          create_access_token L {[ "sub" := JStr (pretty (users.id db_user)) ]}
            (Some access_token_expires) s in
        (Ok {| access_token := access_token; token_type := "bearer" |}, s)
  end.

(** Whether [login] finds a user with the email whose hash verifies the
    password. *)
Definition email_known_and_verified (L : AuthLibraries) (user : UserLogin)
    (s : auth_state) : bool :=
  match query_user_by_email (login_email user) (users_table s) with
  | Some db_user => pwd_verify L (login_password user) (users.hashed_password db_user)
  | None => false
  end.


(** Libraries to run the examples with: a hash that prefixes the
    password, and a token that names its subject. *)
Definition example_auth : AuthLibraries :=
  {| pwd_hash := λ p, "$2b$" ++ p;
     pwd_verify := λ p h, String.eqb h ("$2b$" ++ p);
     jwt_encode := λ claims,
       match claims !! "sub" with
       | Some (JStr sub) => "token-for-" ++ sub
       | _ => "token"
       end |}.

Definition ada : UserCreate :=
  {| create_email := "ada@example.org"; create_username := "ada";
     create_password := "s3cret" |}.

Definition no_users : auth_state := {| users_table := []; utcnow := 1000 |}.

Definition ada_user : users.User :=
  {| users.id := 1; users.email := "ada@example.org"; users.username := "ada";
     users.hashed_password := "$2b$s3cret"; users.is_active := true;
     users.is_admin := false |}.

Definition ada_registered : auth_state :=
  {| users_table := [ada_user]; utcnow := 1000 |}.

(** * Properties of the cost computation *)

Lemma int_inject_Z_075 (t : Z) : int (inject_Z t * 0.75) = (3 * t ÷ 4)%Z.
Proof.
  unfold int. cbn [Qmult inject_Z Qnum Qden].
  replace (t * 75)%Z with ((3 * t) * 25)%Z by lia.
  change (Z.pos (1 * 100)) with (4 * 25)%Z.
  rewrite Z.quot_mul_cancel_r; lia.
Qed.

Lemma int_inject_Z_025 (t : Z) : int (inject_Z t * 0.25) = (t ÷ 4)%Z.
Proof.
  unfold int. cbn [Qmult inject_Z Qnum Qden].
  change (Z.pos (1 * 100)) with (4 * 25)%Z.
  rewrite Z.quot_mul_cancel_r; lia.
Qed.



Lemma round_half_even_bounds (x : Q) :
  (Qfloor x ≤ round_half_even x ≤ Qfloor x + 1)%Z.
Proof.
  unfold round_half_even. destruct (_ ?= _)%Q; [destruct (Z.even _)| |]; lia.
Qed.

Lemma round_half_even_mono (x y : Q) : (x <= y)%Q → (round_half_even x ≤ round_half_even y)%Z.
Proof.
  intros L. pose proof (Qfloor_resp_le _ _ L) as F.
  destruct (Z.eq_dec (Qfloor x) (Qfloor y)) as [E|N].
  - unfold round_half_even. rewrite E.
    destruct (y - inject_Z (Qfloor y) ?= 1 # 2)%Q eqn:Cy;
    destruct (x - inject_Z (Qfloor y) ?= 1 # 2)%Q eqn:Cx;
    try (destruct (Z.even (Qfloor y)); lia); try lia; exfalso.
    + apply Qeq_alt in Cy. apply Qgt_alt in Cx. lra.
    + apply Qlt_alt in Cy. apply Qeq_alt in Cx. lra.
    + apply Qlt_alt in Cy. apply Qgt_alt in Cx. lra.
  - pose proof (round_half_even_bounds x). pose proof (round_half_even_bounds y). lia.
Qed.

Lemma round6_mono (x y : Q) : (x <= y)%Q → (round6 x <= round6 y)%Q.
Proof.
  intros L. unfold round6, Qle. cbn [Qnum Qden].
  apply Z.mul_le_mono_nonneg_r; [lia|].
  apply round_half_even_mono. lra.
Qed.

Lemma priced_Some pricing t model p :
  pricing !! model = Some p → priced pricing t model = Ok (cost_at p t).
Proof. intros E. unfold priced. rewrite E. reflexivity. Qed.

Lemma calculate_cost_of_priced c t model :
  calculate_cost_of c t model =
  priced (pricing_of c) t
    (match pricing_of c !! model with Some _ => model | None => default_model_of c end).
Proof.
  destruct c; cbn [calculate_cost_of pricing_of default_model_of];
    unfold OpenAIProvider.calculate_cost, GeminiProvider.calculate_cost,
      ClaudeProvider.calculate_cost;
    case_bool_decide as D.
  all: try (apply not_elem_of_dom in D; rewrite D; reflexivity).
  all: apply elem_of_dom in D as [p ->]; reflexivity.
Qed.

Lemma default_model_priced c : is_Some (pricing_of c !! default_model_of c).
Proof. destruct c; vm_compute; eauto. Qed.

Lemma pricing_nonneg c model p :
  pricing_of c !! model = Some p → (0 <= input p)%Q ∧ (0 <= output p)%Q.
Proof.
  destruct c; cbn [pricing_of];
    unfold OpenAIProvider.pricing, GeminiProvider.pricing, ClaudeProvider.pricing;
    intros L.
  all: repeat (apply lookup_insert_Some in L as [[_ <-]|[_ L]];
               [split; discriminate|]).
  all: apply lookup_singleton_Some in L as [_ <-]; split; discriminate.
Qed.

Lemma calculate_cost_of_total c t model :
  ∃ p, pricing_of c !! (match pricing_of c !! model with
                        | Some _ => model | None => default_model_of c end) = Some p
       ∧ calculate_cost_of c t model = Ok (cost_at p t).
Proof.
  rewrite calculate_cost_of_priced.
  destruct (pricing_of c !! model) as [p|] eqn:E.
  - exists p. split; [done|]. by apply priced_Some.
  - destruct (default_model_priced c) as [p Hp]. exists p. split; [done|]. by apply priced_Some.
Qed.

Lemma cost_at_mono p t1 t2 :
  (0 <= input p)%Q → (0 <= output p)%Q → (t1 ≤ t2)%Z → (cost_at p t1 <= cost_at p t2)%Q.
Proof.
  intros Hi Ho L. unfold cost_at. apply round6_mono.
  rewrite !int_inject_Z_075, !int_inject_Z_025.
  assert (A : (inject_Z (3 * t1 ÷ 4) <= inject_Z (3 * t2 ÷ 4))%Q).
  { rewrite <- Zle_Qle. apply Z.quot_le_mono; lia. }
  assert (B : (inject_Z (t1 ÷ 4) <= inject_Z (t2 ÷ 4))%Q).
  { rewrite <- Zle_Qle. apply Z.quot_le_mono; lia. }
  apply Qplus_le_compat; apply Qmult_le_compat_r; try assumption;
    apply Qmult_le_compat_r; try assumption; discriminate.
Qed.




(** C7: for every provider class and model name, [calculate_cost] returns
    and is monotonically non-decreasing in the token count on [0 <= t1 <= t2]. *)
Theorem calculate_cost_monotone (c : provider_class) (model : string) (t1 t2 : Z) :
  (0 ≤ t1 ≤ t2)%Z →
  ∃ x1 x2, calculate_cost_of c t1 model = Ok x1 ∧
           calculate_cost_of c t2 model = Ok x2 ∧
           (x1 <= x2)%Q.
Proof.
  intros [_ L].
  destruct (calculate_cost_of_total c t1 model) as (p & Hp & E1).
  destruct (calculate_cost_of_total c t2 model) as (p' & Hp' & E2).
  assert (p' = p) as -> by congruence.
  exists (cost_at p t1), (cost_at p t2). repeat split; [done..|].
  destruct (pricing_nonneg _ _ _ Hp). by apply cost_at_mono.
Qed.

Lemma calculate_cost_monotone_witness :
  (0 ≤ 3 ≤ 1000)%Z ∧
  ∃ x1 x2, calculate_cost_of Gemini 3 "gemini-2.5-flash" = Ok x1 ∧
           calculate_cost_of Gemini 1000 "gemini-2.5-flash" = Ok x2 ∧
           (x1 <= x2)%Q.
Proof.
  split; [lia|]. apply (calculate_cost_monotone Gemini "gemini-2.5-flash" 3 1000). lia.
Defined.

(** C8: for every provider class, token count and model name absent from
    the price table, [calculate_cost] does not raise and returns what it
    returns for the class's default model (gpt-4, gemini-pro,
    claude-3-sonnet-20240229). *)
Theorem calculate_cost_unknown_model (c : provider_class) (t : Z) (model : string) :
  pricing_of c !! model = None →
  ∃ x, calculate_cost_of c t model = Ok x ∧
       calculate_cost_of c t (default_model_of c) = Ok x.
Proof.
  intros N.
  destruct (default_model_priced c) as [p Hp].
  exists (cost_at p t).
  rewrite !calculate_cost_of_priced, N, Hp. split; by apply priced_Some.
Qed.

Lemma calculate_cost_unknown_model_witness :
  pricing_of Claude !! "claude-9" = None ∧
  ∃ x, calculate_cost_of Claude 4000 "claude-9" = Ok x ∧
       calculate_cost_of Claude 4000 (default_model_of Claude) = Ok x.
Proof.
  split; [reflexivity|]. apply (calculate_cost_unknown_model Claude 4000 "claude-9").
  reflexivity.
Defined.



(** * Properties of the validator *)







(** * Properties of the route *)

Ltac unfold_M :=
  unfold mbind, mret, M_mbind, M_ret, bind, ret, raise, gets, modify, lift in *.

(** Closes a branch of the route that ends in an [HTTPException]: raised
    by the [try] block itself (no row), or by the handler (one error row). *)
Ltac route_raises :=
  split; [done|];
  first [ right; left; eexists _, _, _; split; reflexivity
        | left; eexists _, _; repeat split; done ].

Section RouteFacts.
Context `{Libraries} (w : World).
Variables (prompt_id : Z) (execution_request : schemas.PromptExecutionRequest)
          (current_user_id : Z).

(** The route is its [try] block run in the state with the gauge
    incremented, followed by the decrement. *)
Lemma execute_prompt_unfold (s : state) :
  let s1 := set_active_executions (active_executions s + 1)%Z s in
  let '(r, s2) := try_except
                    (execute_prompt_try w prompt_id execution_request current_user_id (now s))
                    (execute_prompt_except prompt_id execution_request current_user_id (now s))
                    s1 in
  execute_prompt w prompt_id execution_request current_user_id s
  = (r, set_active_executions (active_executions s2 - 1)%Z s2).
Proof.
  unfold execute_prompt, gauge_inc, gauge_dec, time_time, try_finally. unfold_M. cbn.
  destruct (try_except _ _ _) as [r s2]. reflexivity.
Qed.

(** Every way through the [try] block and its handlers. *)
Lemma try_block_cases (start_time : Q) (s1 : state) :
  let '(r, s2) := try_except
                    (execute_prompt_try w prompt_id execution_request current_user_id start_time)
                    (execute_prompt_except prompt_id execution_request current_user_id start_time)
                    s1 in
  active_executions s2 = active_executions s1 ∧
  ((∃ c d, r = Raise (HTTPException c d) ∧ c ≠ 500%Z ∧
           prompt_execution_history s2 = prompt_execution_history s1) ∨
   (∃ e id elapsed,
      r = Raise (HTTPException 500 ("Execution failed: " ++ str_exn e)) ∧
      prompt_execution_history s2 =
        (prompt_execution_history s1 ++
         [error_history prompt_id execution_request current_user_id id elapsed e])%list) ∨
   (∃ resp prompt filled row,
      r = Ok resp ∧
      expert_prompts s1 !! prompt_id = Some prompt ∧
      validate_variables_against_schema (schemas.variables execution_request)
        (models.variables_schema prompt) = Ok (models.variables row) ∧
      str_format (models.template prompt) (models.variables row) = Ok filled ∧
      models.status row = "success" ∧
      prompt_execution_history s2 = (prompt_execution_history s1 ++ [row])%list)).
Proof.
  unfold try_except, execute_prompt_try, db_query_prompt, except_ValueError,
    except_KeyError, await_execute, inc_prompt_executions_total,
    observe_prompt_execution_duration, inc_llm_tokens_used, inc_llm_cost_total,
    db_add_commit, time_time.
  unfold_M. cbn.
  destruct (expert_prompts s1 !! prompt_id) as [prompt|] eqn:Found; cbn.
  2:{ split; [done|]. left. eexists _, _. repeat split. done. }
  destruct (validate_variables_against_schema _ _) as [vv|[]] eqn:V; cbn;
    try route_raises.
  destruct (LLMFactory.get_provider _ _ _) as [llm_provider|[]] eqn:P; cbn;
    try route_raises.
  destruct (str_format _ _) as [filled|[]] eqn:F; cbn; try route_raises.
  destruct (execute llm_provider _ _ _ _) as [[res|e] dt] eqn:X; cbn;
    try route_raises.
  destruct (calculate_cost llm_provider _ _) as [cost|e] eqn:C; cbn;
    try route_raises.
  unfold counter_inc; cbn.
  destruct (Qle_bool 0 (inject_Z (res_tokens_used res))); cbn; try route_raises.
  destruct (Qle_bool 0 cost); cbn; try route_raises.
  split; [done|]. right; right.
  eexists _, prompt, filled, (success_history _ _ _ vv res _ _ cost _).
  repeat split; done.
Qed.

(** The route when the vendor call or the pricing raises [e], the vendor
    having taken [dt] seconds: the final state, field by field. *)
Lemma execute_prompt_error_path (s : state) (prompt : models.ExpertPrompt)
    (vv : gmap string json) (llm_provider : LLMProvider) (filled : string)
    (e : py_exn) (dt : Q) :
  expert_prompts s !! prompt_id = Some prompt →
  validate_variables_against_schema (schemas.variables execution_request)
    (models.variables_schema prompt) = Ok vv →
  LLMFactory.get_provider (getenv w) (vendors w)
    (py_or (schemas.llm_provider execution_request) "openai") = Ok llm_provider →
  str_format (models.template prompt) vv = Ok filled →
  (execute llm_provider filled (py_or (schemas.llm_model execution_request) "gpt-4")
     (schemas.temperature execution_request) (schemas.max_tokens execution_request)
   = (Raise e, dt) ∨
   ∃ res,
     execute llm_provider filled (py_or (schemas.llm_model execution_request) "gpt-4")
       (schemas.temperature execution_request) (schemas.max_tokens execution_request)
     = (Ok res, dt) ∧
     calculate_cost llm_provider (res_tokens_used res)
       (py_or (schemas.llm_model execution_request) "gpt-4") = Raise e) →
  ∃ s',
    execute_prompt w prompt_id execution_request current_user_id s
    = (Raise (HTTPException 500 ("Execution failed: " ++ str_exn e)), s') ∧
    prompt_execution_history s' =
      (prompt_execution_history s ++
       [error_history prompt_id execution_request current_user_id
          (Z.of_nat (length (prompt_execution_history s)) + 1)
          (now s' - now s)%Q e])%list ∧
    now s' = (now s + dt)%Q ∧
    prompt_executions_total s' =
      <[(prompt_id, py_or (schemas.llm_provider execution_request) "unknown", "error")
        := (default 0 (prompt_executions_total s !!
              (prompt_id, py_or (schemas.llm_provider execution_request) "unknown",
               "error")) + 1)%Q]>
        (prompt_executions_total s) ∧
    active_executions s' = active_executions s.
Proof.
  intros Found V P F X.
  pose proof (execute_prompt_unfold s) as U. cbv zeta in U.
  unfold try_except, execute_prompt_try, db_query_prompt, except_ValueError,
    except_KeyError, await_execute in U.
  unfold_M. cbn in U. rewrite Found in U. cbn in U. rewrite V, P, F in U.
  destruct X as [X|(res & X & C)]; rewrite X in U; cbn in U; [|rewrite C in U; cbn in U].
  all: eexists; split; [exact U|]; cbn; repeat split; lia.
Qed.

End RouteFacts.

(** A provider object the factory returns prices every token count and
    model name without raising. *)
Lemma get_provider_calculate_cost_total (getenv : string → option string)
    (world_vendor : string → vendor) (name : string) (llm_provider : LLMProvider)
    (tokens : Z) (model : string) :
  LLMFactory.get_provider getenv world_vendor name = Ok llm_provider →
  ∃ cost, calculate_cost llm_provider tokens model = Ok cost.
Proof.
  unfold LLMFactory.get_provider, OpenAIProvider.new, GeminiProvider.new,
    ClaudeProvider.new.
  intros G.
  repeat (destruct (String.eqb name _);
          [destruct (truthy_str _); [|discriminate]; injection G as <-; cbn|]).
  - destruct (calculate_cost_of_total OpenAI tokens model) as (p & _ & E). eauto.
  - destruct (calculate_cost_of_total Gemini tokens model) as (p & _ & E). eauto.
  - destruct (calculate_cost_of_total Claude tokens model) as (p & _ & E). eauto.
  - discriminate.
Qed.

(** C3: when the vendor call or the pricing raises [e], the route writes
    exactly one row, with status "error", [str(e)] as its error message, no
    output, zero tokens, zero cost and the time elapsed since entry, and
    re-raises the failure to the caller as an [HTTPException] 500. *)
Theorem execute_prompt_failure_recorded `{Libraries} (w : World) (prompt_id : Z)
    (execution_request : schemas.PromptExecutionRequest) (current_user_id : Z)
    (s : state) (prompt : models.ExpertPrompt) (vv : gmap string json)
    (llm_provider : LLMProvider) (filled : string) (e : py_exn) (dt : Q) :
  expert_prompts s !! prompt_id = Some prompt →
  validate_variables_against_schema (schemas.variables execution_request)
    (models.variables_schema prompt) = Ok vv →
  LLMFactory.get_provider (getenv w) (vendors w)
    (py_or (schemas.llm_provider execution_request) "openai") = Ok llm_provider →
  str_format (models.template prompt) vv = Ok filled →
  (execute llm_provider filled (py_or (schemas.llm_model execution_request) "gpt-4")
     (schemas.temperature execution_request) (schemas.max_tokens execution_request)
   = (Raise e, dt) ∨
   ∃ res,
     execute llm_provider filled (py_or (schemas.llm_model execution_request) "gpt-4")
       (schemas.temperature execution_request) (schemas.max_tokens execution_request)
     = (Ok res, dt) ∧
     calculate_cost llm_provider (res_tokens_used res)
       (py_or (schemas.llm_model execution_request) "gpt-4") = Raise e) →
  ∃ s' row,
    execute_prompt w prompt_id execution_request current_user_id s
    = (Raise (HTTPException 500 ("Execution failed: " ++ str_exn e)), s') ∧
    prompt_execution_history s' = (prompt_execution_history s ++ [row])%list ∧
    models.status row = "error" ∧
    models.error_message row = Some (str_exn e) ∧
    models.output row = None ∧
    models.tokens_used row = 0%Z ∧
    models.cost row = 0%Q ∧
    models.execution_time row = (now s' - now s)%Q ∧
    now s' = (now s + dt)%Q.
Proof.
  intros Found V P F X.
  destruct (execute_prompt_error_path w prompt_id execution_request current_user_id
              s prompt vv llm_provider filled e dt Found V P F X)
    as (s' & Run & Hist & Now & _ & _).
  eexists s', _. split; [exact Run|]. split; [exact Hist|]. cbn. done.
Qed.

Lemma execute_prompt_failure_recorded_witness :
  expert_prompts example_state !! 1%Z = Some example_prompt ∧
  @validate_variables_against_schema example_libraries example_variables example_schema
    = Ok example_enriched ∧
  LLMFactory.get_provider (getenv failing_world) (vendors failing_world) "openai"
    = Ok failing_openai ∧
  simple_format (models.template example_prompt) example_enriched
    = Ok "Greet Ada in a formal tone" ∧
  execute failing_openai "Greet Ada in a formal tone" "gpt-4" (Some 0.7%Q) None
    = (Raise (APIError "Request timed out."), 3%Q) ∧
  ∃ s' row,
    @execute_prompt example_libraries failing_world 1 example_request 7 example_state
    = (Raise (HTTPException 500 "Execution failed: Request timed out."), s') ∧
    prompt_execution_history s' = [row] ∧
    models.status row = "error" ∧
    models.error_message row = Some "Request timed out." ∧
    models.output row = None ∧
    models.tokens_used row = 0%Z ∧
    models.cost row = 0%Q ∧
    models.execution_time row = (now s' - 100)%Q ∧
    now s' = (100 + 3)%Q.
Proof.
  split; [reflexivity|]. split; [vm_compute; reflexivity|].
  split; [reflexivity|]. split; [vm_compute; reflexivity|]. split; [reflexivity|].
  apply (@execute_prompt_failure_recorded example_libraries failing_world 1
           example_request 7 example_state example_prompt example_enriched
           failing_openai "Greet Ada in a formal tone"
           (APIError "Request timed out.") 3%Q).
  - reflexivity.
  - vm_compute; reflexivity.
  - reflexivity.
  - vm_compute; reflexivity.
  - left. reflexivity.
Defined.

(** C4 (as stated, refuted): the vendor fails on a request that leaves
    [tone] to its default. The template was rendered with the enriched
    map, which binds [tone]; the row written holds the variables as the
    caller sent them, without [tone]. *)
Lemma error_row_variables_counterexample :
  @validate_variables_against_schema example_libraries
    (schemas.variables example_request) example_schema = Ok example_enriched ∧
  example_enriched !! "tone" = Some (JStr "formal") ∧
  ∃ r s' row,
    @execute_prompt example_libraries failing_world 1 example_request 7 example_state
    = (r, s') ∧
    prompt_execution_history s' = [row] ∧
    models.variables row !! "tone" = None ∧
    models.variables row ≠ example_enriched.
Proof.
  split; [vm_compute; reflexivity|]. split; [reflexivity|].
  destruct (execute_prompt_error_path (H:=example_libraries) failing_world 1
              example_request 7 example_state example_prompt example_enriched
              failing_openai "Greet Ada in a formal tone"
              (APIError "Request timed out.") 3%Q)
    as (s' & Run & Hist & _); [reflexivity | vm_compute; reflexivity | reflexivity
                              | vm_compute; reflexivity | left; reflexivity |].
  eexists _, s', _. split; [exact Run|]. split; [exact Hist|].
  split; [reflexivity|]. intros E.
  apply (f_equal (λ m : gmap string json, m !! "tone")) in E. discriminate E.
Qed.

(** C4 (amended): a call of the route writes at most one row. A call that
    returns writes one, with status "success", whose variables are the
    enriched map the template was rendered with. A call that ends in the
    handler writes one, with status "error", whose variables are the
    caller-supplied map as received. *)
Theorem written_row_variables `{Libraries} (w : World) (prompt_id : Z)
    (execution_request : schemas.PromptExecutionRequest) (current_user_id : Z)
    (s : state) :
  let '(r, s') := execute_prompt w prompt_id execution_request current_user_id s in
  prompt_execution_history s' = prompt_execution_history s ∨
  ∃ row,
    prompt_execution_history s' = (prompt_execution_history s ++ [row])%list ∧
    match r with
    | Ok _ =>
        models.status row = "success" ∧
        ∃ prompt filled,
          expert_prompts s !! prompt_id = Some prompt ∧
          validate_variables_against_schema (schemas.variables execution_request)
            (models.variables_schema prompt) = Ok (models.variables row) ∧
          str_format (models.template prompt) (models.variables row) = Ok filled
    | Raise _ =>
        models.status row = "error" ∧
        models.variables row = schemas.variables execution_request
    end.
Proof.
  pose proof (execute_prompt_unfold w prompt_id execution_request current_user_id s) as U.
  pose proof (try_block_cases w prompt_id execution_request current_user_id (now s)
                (set_active_executions (active_executions s + 1)%Z s)) as C.
  cbv zeta in U. destruct (try_except _ _ _) as [r2 s2]. rewrite U.
  destruct C as [_ [(c & d & -> & _ & Hist)|[(e & id & elapsed & -> & Hist)
                   |(resp & prompt & filled & row & -> & Found & V & F & St & Hist)]]].
  - left. exact Hist.
  - right. eexists. split; [exact Hist|]. done.
  - right. exists row. split; [exact Hist|]. split; [exact St|]. by exists prompt, filled.
Qed.

(** The route returns on the example: one row, with the enriched variables. *)
Example example_run_succeeds :
  ∃ resp s' row,
    @execute_prompt example_libraries example_world 1 example_request 7 example_state
    = (Ok resp, s') ∧
    schemas.output resp = "Dear Greet Ada in a formal tone" ∧
    schemas.tokens_used resp = 1000%Z ∧
    (schemas.cost resp == 0.0375)%Q ∧
    prompt_execution_history s' = [row] ∧
    models.variables row = example_enriched.
Proof. eexists _, _, _. split; [vm_compute; reflexivity|]. repeat split. Qed.


(** C6: when the validator rejects the variables of an existing prompt
    with [ValueError msg], the route raises [HTTPException] 400 with that
    message and writes no row; the whole state is as it was at entry. *)
Theorem validation_failure_not_recorded `{Libraries} (w : World) (prompt_id : Z)
    (execution_request : schemas.PromptExecutionRequest) (current_user_id : Z)
    (s : state) (prompt : models.ExpertPrompt) (msg : string) :
  expert_prompts s !! prompt_id = Some prompt →
  validate_variables_against_schema (schemas.variables execution_request)
    (models.variables_schema prompt) = Raise (ValueError msg) →
  ∃ s',
    execute_prompt w prompt_id execution_request current_user_id s
    = (Raise (HTTPException 400 msg), s') ∧
    prompt_execution_history s' = prompt_execution_history s ∧
    s' = s.
Proof.
  intros Found V.
  pose proof (execute_prompt_unfold w prompt_id execution_request current_user_id s) as U.
  cbv zeta in U.
  unfold try_except, execute_prompt_try, db_query_prompt, except_ValueError in U.
  unfold_M. cbn in U. rewrite Found in U. cbn in U. rewrite V in U. cbn in U.
  eexists. split; [exact U|]. split; [reflexivity|].
  destruct s. unfold set_active_executions. cbn. f_equal. lia.
Qed.

Lemma validation_failure_not_recorded_witness :
  expert_prompts example_state !! 1%Z = Some example_prompt ∧
  @validate_variables_against_schema example_libraries
    (schemas.variables incomplete_request) (models.variables_schema example_prompt)
  = Raise (ValueError ("Variable validation failed:" ++ nl ++
                       "root: 'name' is a required property")) ∧
  ∃ s',
    @execute_prompt example_libraries example_world 1 incomplete_request 7 example_state
    = (Raise (HTTPException 400 ("Variable validation failed:" ++ nl ++
                                 "root: 'name' is a required property")), s') ∧
    prompt_execution_history s' = prompt_execution_history example_state ∧
    s' = example_state.
Proof.
  split; [reflexivity|]. split; [vm_compute; reflexivity|].
  apply (@validation_failure_not_recorded example_libraries example_world 1
           incomplete_request 7 example_state example_prompt).
  - reflexivity.
  - vm_compute; reflexivity.
Defined.

(** C10 (as stated, refuted): the caller sends empty strings, not null,
    for provider and model. Dispatch resolves them to openai and gpt-4,
    the vendor fails, and the row written is labelled "unknown" twice. *)
Lemma unknown_label_without_null_counterexample :
  schemas.llm_provider blank_request = Some "" ∧
  schemas.llm_model blank_request = Some "" ∧
  LLMFactory.get_provider (getenv failing_world) (vendors failing_world)
    (py_or (schemas.llm_provider blank_request) "openai") = Ok failing_openai ∧
  ∃ s' row,
    @execute_prompt example_libraries failing_world 1 blank_request 7 example_state
    = (Raise (HTTPException 500 "Execution failed: Request timed out."), s') ∧
    prompt_execution_history s' = [row] ∧
    models.llm_provider row = "unknown" ∧
    models.llm_model row = "unknown".
Proof.
  split; [reflexivity|]. split; [reflexivity|]. split; [reflexivity|].
  destruct (execute_prompt_error_path (H:=example_libraries) failing_world 1
              blank_request 7 example_state example_prompt example_enriched
              failing_openai "Greet Ada in a formal tone"
              (APIError "Request timed out.") 3%Q)
    as (s' & Run & Hist & _); [reflexivity | vm_compute; reflexivity | reflexivity
                              | vm_compute; reflexivity | left; reflexivity |].
  eexists s', _. split; [exact Run|]. split; [exact Hist|]. split; reflexivity.
Qed.

Lemma optional_default_falsy (d : string) (f : field string) :
  d ≠ "" →
  truthy_str (optional_default d f) = false ↔ f = Null ∨ f = Given "".
Proof.
  intros D. destruct f as [| |a]; cbn.
  - destruct (String.eqb_spec d ""); [done|]. cbn. split; [done|]. intros [|]; done.
  - split; auto.
  - destruct (String.eqb_spec a "") as [->|N]; cbn.
    + split; auto.
    + split; [done|]. intros [|[= ->]]; done.
Qed.

Lemma py_or_falsy (x : option string) (d : string) :
  truthy_str x = false → py_or x d = d.
Proof. destruct x as [a|]; cbn; [|done]. by destruct (String.eqb a ""). Qed.

Lemma py_or_truthy (x : option string) (d d' : string) :
  truthy_str x = true → py_or x d = py_or x d'.
Proof. destruct x as [a|]; cbn; [|done]. by destruct (String.eqb a ""). Qed.

(** C10 (amended): an omitted provider or model takes the default of the
    request schema, so on the error path the fallback "unknown" is taken
    exactly for a field sent as null or as the empty string. For such a
    provider field dispatch resolved to openai, yet the error row and the
    error counter carry the provider label "unknown"; for such a model
    field dispatch resolved to gpt-4, yet the error row carries the model
    "unknown". For any other field the row carries the name dispatch
    used. The error counter has no model label. *)
Theorem error_labels_unknown `{Libraries} (w : World) (prompt_id : Z)
    (execution_request : schemas.PromptExecutionRequest)
    (variables : option (gmap string json)) (provider model : field string)
    (temperature : field Q) (max_tokens : field Z) (current_user_id : Z)
    (s : state) (prompt : models.ExpertPrompt) (vv : gmap string json)
    (llm_provider : LLMProvider) (filled : string) (e : py_exn) (dt : Q) :
  execution_request = schemas.parse variables provider model temperature max_tokens →
  expert_prompts s !! prompt_id = Some prompt →
  validate_variables_against_schema (schemas.variables execution_request)
    (models.variables_schema prompt) = Ok vv →
  LLMFactory.get_provider (getenv w) (vendors w)
    (py_or (schemas.llm_provider execution_request) "openai") = Ok llm_provider →
  str_format (models.template prompt) vv = Ok filled →
  (execute llm_provider filled (py_or (schemas.llm_model execution_request) "gpt-4")
     (schemas.temperature execution_request) (schemas.max_tokens execution_request)
   = (Raise e, dt) ∨
   ∃ res,
     execute llm_provider filled (py_or (schemas.llm_model execution_request) "gpt-4")
       (schemas.temperature execution_request) (schemas.max_tokens execution_request)
     = (Ok res, dt) ∧
     calculate_cost llm_provider (res_tokens_used res)
       (py_or (schemas.llm_model execution_request) "gpt-4") = Raise e) →
  ∃ s' row,
    execute_prompt w prompt_id execution_request current_user_id s
    = (Raise (HTTPException 500 ("Execution failed: " ++ str_exn e)), s') ∧
    prompt_execution_history s' = (prompt_execution_history s ++ [row])%list ∧
    (provider = Null ∨ provider = Given "" →
     py_or (schemas.llm_provider execution_request) "openai" = "openai" ∧
     models.llm_provider row = "unknown" ∧
     prompt_executions_total s' !! (prompt_id, "unknown", "error")
     = Some (default 0 (prompt_executions_total s !! (prompt_id, "unknown", "error"))
             + 1)%Q) ∧
    (¬ (provider = Null ∨ provider = Given "") →
     models.llm_provider row = py_or (schemas.llm_provider execution_request) "openai" ∧
     is_Some (prompt_executions_total s'
                !! (prompt_id, py_or (schemas.llm_provider execution_request) "openai",
                    "error"))) ∧
    (model = Null ∨ model = Given "" →
     py_or (schemas.llm_model execution_request) "gpt-4" = "gpt-4" ∧
     models.llm_model row = "unknown") ∧
    (¬ (model = Null ∨ model = Given "") →
     models.llm_model row = py_or (schemas.llm_model execution_request) "gpt-4").
Proof.
  intros Parsed Found V P F X.
  destruct (execute_prompt_error_path w prompt_id execution_request current_user_id
              s prompt vv llm_provider filled e dt Found V P F X)
    as (s' & Run & Hist & _ & Total & _).
  eexists s', _. split; [exact Run|]. split; [exact Hist|].
  pose proof (optional_default_falsy "openai" provider ltac:(done)) as FP.
  pose proof (optional_default_falsy "gpt-4" model ltac:(done)) as FM.
  assert (EP : schemas.llm_provider execution_request = optional_default "openai" provider)
    by (by rewrite Parsed).
  assert (EM : schemas.llm_model execution_request = optional_default "gpt-4" model)
    by (by rewrite Parsed).
  rewrite <- EP in FP. rewrite <- EM in FM. clear EP EM Parsed.
  cbn [error_history models.llm_provider models.llm_model].
  assert (TP : ¬ (provider = Null ∨ provider = Given "") →
               truthy_str (schemas.llm_provider execution_request) = true).
  { intros N. destruct (truthy_str (schemas.llm_provider execution_request)); [done|].
    destruct N. by apply FP. }
  assert (TM : ¬ (model = Null ∨ model = Given "") →
               truthy_str (schemas.llm_model execution_request) = true).
  { intros N. destruct (truthy_str (schemas.llm_model execution_request)); [done|].
    destruct N. by apply FM. }
  split; [|split; [|split]].
  - intros Falsy. apply FP in Falsy. repeat split.
    + by apply py_or_falsy.
    + by apply py_or_falsy.
    + rewrite Total, (py_or_falsy _ "unknown" Falsy). by rewrite lookup_insert_eq.
  - intros Truthy. apply TP in Truthy.
    rewrite (py_or_truthy _ "unknown" "openai" Truthy).
    split; [done|]. rewrite Total, (py_or_truthy _ "unknown" "openai" Truthy).
    rewrite lookup_insert_eq. eauto.
  - intros Falsy. apply FM in Falsy. split; by apply py_or_falsy.
  - intros Truthy. apply TM in Truthy. by apply py_or_truthy.
Qed.

Lemma error_labels_unknown_witness :
  blank_request = schemas.parse (Some example_variables) (Given "") (Given "")
                    Omitted Omitted ∧
  expert_prompts example_state !! 1%Z = Some example_prompt ∧
  @validate_variables_against_schema example_libraries
    (schemas.variables blank_request) (models.variables_schema example_prompt)
  = Ok example_enriched ∧
  LLMFactory.get_provider (getenv failing_world) (vendors failing_world)
    (py_or (schemas.llm_provider blank_request) "openai") = Ok failing_openai ∧
  simple_format (models.template example_prompt) example_enriched
  = Ok "Greet Ada in a formal tone" ∧
  execute failing_openai "Greet Ada in a formal tone"
    (py_or (schemas.llm_model blank_request) "gpt-4")
    (schemas.temperature blank_request) (schemas.max_tokens blank_request)
  = (Raise (APIError "Request timed out."), 3%Q) ∧
  ∃ s' row,
    @execute_prompt example_libraries failing_world 1 blank_request 7 example_state
    = (Raise (HTTPException 500 "Execution failed: Request timed out."), s') ∧
    prompt_execution_history s' = [row] ∧
    (@Given string "" = Null ∨ @Given string "" = Given "" →
     py_or (schemas.llm_provider blank_request) "openai" = "openai" ∧
     models.llm_provider row = "unknown" ∧
     prompt_executions_total s' !! (1%Z, "unknown", "error")
     = Some (default 0 (prompt_executions_total example_state
                          !! (1%Z, "unknown", "error")) + 1)%Q) ∧
    (¬ (@Given string "" = Null ∨ @Given string "" = Given "") →
     models.llm_provider row = py_or (schemas.llm_provider blank_request) "openai" ∧
     is_Some (prompt_executions_total s'
                !! (1%Z, py_or (schemas.llm_provider blank_request) "openai", "error"))) ∧
    (@Given string "" = Null ∨ @Given string "" = Given "" →
     py_or (schemas.llm_model blank_request) "gpt-4" = "gpt-4" ∧
     models.llm_model row = "unknown") ∧
    (¬ (@Given string "" = Null ∨ @Given string "" = Given "") →
     models.llm_model row = py_or (schemas.llm_model blank_request) "gpt-4").
Proof.
  split; [reflexivity|].
  split; [reflexivity|]. split; [vm_compute; reflexivity|].
  split; [reflexivity|]. split; [vm_compute; reflexivity|]. split; [reflexivity|].
  apply (@error_labels_unknown example_libraries failing_world 1 blank_request
           (Some example_variables) (Given "") (Given "") Omitted Omitted 7
           example_state example_prompt example_enriched failing_openai
           "Greet Ada in a formal tone" (APIError "Request timed out.") 3%Q).
  - reflexivity.
  - reflexivity.
  - vm_compute; reflexivity.
  - reflexivity.
  - vm_compute; reflexivity.
  - left. reflexivity.
Defined.

(** The exits of the route on the examples: prompt not found, variables
    rejected, provider unknown, provider not configured, variable missing
    from the template. None writes a row. *)
Example exit_not_found :
  @execute_prompt example_libraries example_world 3 example_request 7 example_state
  = (Raise (HTTPException 404 "Expert prompt not found"), example_state).
Proof. vm_compute. reflexivity. Qed.

Example exit_unknown_provider :
  @execute_prompt example_libraries example_world 1
    (schemas.parse (Some example_variables) (Given "foo") Omitted Omitted Omitted)
    7 example_state
  = (Raise (HTTPException 400
       "Unknown LLM provider: foo. Available providers: openai, gemini, claude"),
     example_state).
Proof. vm_compute. reflexivity. Qed.

Example exit_missing_credential :
  @execute_prompt example_libraries unconfigured_world 1 example_request 7 example_state
  = (Raise (HTTPException 400 "OPENAI_API_KEY environment variable not set"),
     example_state).
Proof. vm_compute. reflexivity. Qed.

Example exit_missing_variable :
  @execute_prompt example_libraries example_world 2 example_request 7 example_state
  = (Raise (HTTPException 400 "Missing variable in template: 'who'"), example_state).
Proof. vm_compute. reflexivity. Qed.

(** * More on the validator and its helpers *)

Lemma py_getitem_default (prop_schema d : json) :
  py_getitem prop_schema "default" = Ok d ↔ carries_default prop_schema d.
Proof.
  split.
  - destruct prop_schema; cbn; try discriminate.
    destruct (m !! "default") eqn:L; [|discriminate]. intros [= ->]. by exists m.
  - intros (m & -> & L). cbn. by rewrite L.
Qed.

Lemma enrich_step_cases prop_name prop_schema enriched :
  (∃ x, enriched !! prop_name = Some x ∧
        enrich_step prop_name prop_schema (Ok enriched) = Ok enriched) ∨
  (enriched !! prop_name = None ∧
   ((∃ d, carries_default prop_schema d ∧
          enrich_step prop_name prop_schema (Ok enriched)
          = Ok (<[prop_name := d]> enriched)) ∨
    (py_contains "default" prop_schema = Ok false ∧
     enrich_step prop_name prop_schema (Ok enriched) = Ok enriched) ∨
    (∃ msg, enrich_step prop_name prop_schema (Ok enriched) = Raise (TypeError msg) ∧
            (py_contains "default" prop_schema = Raise (TypeError msg) ∨
             py_contains "default" prop_schema = Ok true)))).
Proof.
  unfold enrich_step. cbn. destruct (enriched !! prop_name) as [x|] eqn:L.
  { left. eauto. }
  right. split; [done|].
  destruct prop_schema as [| | | | s | l | m]; cbn; eauto 8.
  - destruct (str_contains "default" s); cbn; eauto 8.
  - destruct (existsb (is_JStr "default") l); cbn; eauto 8.
  - destruct (m !! "default") as [d|] eqn:D; cbn.
    + left. exists d. split; [by exists m|]. done.
    + right. left. done.
Qed.

Lemma enrich_step_Raise prop_name prop_schema e :
  enrich_step prop_name prop_schema (Raise e) = Raise e.
Proof. reflexivity. Qed.

Lemma enrich_fold_exactly (variables properties : gmap string json) :
  enriched_exactly variables (map_fold enrich_step (Ok variables) properties) properties.
Proof.
  apply (map_fold_weak_ind (enriched_exactly variables)).
  - intros enriched [= <-]. repeat split; [auto..|].
    intros k ps L. by rewrite lookup_empty in L.
  - intros i ps m r Hi IH enriched' E.
    destruct r as [enriched|e]; [|discriminate].
    destruct (IH enriched eq_refl) as (Keep & Exact & Seen).
    assert (Fresh : variables !! i = None → enriched !! i = None).
    { intros V. destruct (enriched !! i) as [x|] eqn:L; [|done].
      destruct (Exact i x L) as [?|(_ & ps' & ? & _)]; congruence. }
    destruct (enrich_step_cases i ps enriched)
      as [(x & L & S)|(L & [(d & D & S)|[(C & S)|(msg & S & _)]])];
      rewrite S in E; try discriminate; injection E as <-.
    + (* already bound: by the caller *)
      assert (V : variables !! i = Some x).
      { destruct (Exact i x L) as [?|(_ & ps' & ? & _)]; congruence. }
      repeat split; [done| |].
      * intros k y Lk. destruct (Exact k y Lk) as [?|(N & ps' & M & D)]; [by left|].
        right. split; [done|]. exists ps'. split; [|done].
        rewrite lookup_insert_ne; [done|congruence].
      * intros k ps' M N. assert (i ≠ k) by congruence.
        rewrite lookup_insert_ne in M by done. by apply Seen.
    + (* the default is injected *)
      repeat split.
      * intros k y V. rewrite lookup_insert_ne; [by apply Keep|].
        intros <-. apply Keep in V. congruence.
      * intros k y Lk. destruct (decide (i = k)) as [<-|N].
        -- rewrite lookup_insert_eq in Lk. injection Lk as <-.
           destruct (variables !! i) as [z|] eqn:V.
           ++ apply Keep in V. congruence.
           ++ right. split; [done|]. exists ps. by rewrite lookup_insert_eq.
        -- rewrite lookup_insert_ne in Lk by done.
           destruct (Exact k y Lk) as [?|(V & ps' & M & D')]; [by left|].
           right. split; [done|]. exists ps'. by rewrite lookup_insert_ne.
      * intros k ps' M V. destruct (decide (i = k)) as [<-|N].
        -- rewrite lookup_insert_eq in M. injection M as <-.
           left. exists d. by rewrite lookup_insert_eq.
        -- rewrite lookup_insert_ne in M by done. rewrite lookup_insert_ne by done.
           by apply Seen.
    + (* no default *)
      repeat split; [done| |].
      * intros k y Lk. destruct (Exact k y Lk) as [?|(N & ps' & M & D)]; [by left|].
        right. split; [done|]. exists ps'. split; [|done].
        rewrite lookup_insert_ne; [done|congruence].
      * intros k ps' M V. destruct (decide (i = k)) as [<-|N].
        -- rewrite lookup_insert_eq in M. injection M as <-. right. done.
        -- rewrite lookup_insert_ne in M by done. by apply Seen.
Qed.

Lemma enrich_fold_raises_TypeError (variables properties : gmap string json) (e : py_exn) :
  map_fold enrich_step (Ok variables) properties = Raise e → ∃ msg, e = TypeError msg.
Proof.
  revert e.
  apply (map_fold_weak_ind
           (λ acc (_ : gmap string json), ∀ e, acc = Raise e → ∃ msg, e = TypeError msg)).
  - discriminate.
  - intros i ps m r _ IH e E. destruct r as [enriched|e0].
    + destruct (enrich_step_cases i ps enriched)
        as [(x & L & S)|(L & [(d & D & S)|[(C & S)|(msg & S & _)]])];
        rewrite S in E; try discriminate.
      injection E as <-. eauto.
    + rewrite enrich_step_Raise in E. injection E as <-. by apply IH.
Qed.

Lemma validate_accepted `{Libraries} (v s : gmap string json) :
  size s ≠ 0%nat → iter_errors s v = Ok [] →
  validate_variables_against_schema v s =
    properties ← get_properties s; map_fold enrich_step (Ok v) properties.
Proof.
  intros N E. unfold validate_variables_against_schema.
  rewrite bool_decide_false by done. rewrite E. reflexivity.
Qed.

Lemma validate_Ok_inv `{Libraries} (v s r : gmap string json) :
  validate_variables_against_schema v s = Ok r →
  (size s = 0%nat ∧ r = v) ∨
  (size s ≠ 0%nat ∧ iter_errors s v = Ok [] ∧
   ∃ properties, get_properties s = Ok properties ∧
                 map_fold enrich_step (Ok v) properties = Ok r).
Proof.
  unfold validate_variables_against_schema. case_bool_decide as Empty.
  - intros [= <-]. by left.
  - destruct (iter_errors s v) as [[|error errors]|e] eqn:E; cbn; [|discriminate..].
    destruct (get_properties s) as [properties|e] eqn:P; cbn; [|discriminate].
    intros Fold. right. eauto 6.
Qed.

Lemma get_properties_Ok (s properties : gmap string json) :
  get_properties s = Ok properties →
  (s !! "properties" = None ∧ properties = ∅) ∨ s !! "properties" = Some (JObj properties).
Proof.
  unfold get_properties. destruct (s !! "properties") as [[]|]; try discriminate.
  - intros [= <-]. by right.
  - intros [= <-]. by left.
Qed.

Lemma validate_Ok_bindings `{Libraries} (v s r : gmap string json)
    (k : string) (x : json) :
  validate_variables_against_schema v s = Ok r →
  r !! k = Some x →
  v !! k = Some x ∨
  (v !! k = None ∧
   ∃ properties prop_schema,
     s !! "properties" = Some (JObj properties) ∧
     properties !! k = Some prop_schema ∧
     carries_default prop_schema x).
Proof.
  intros V L.
  destruct (validate_Ok_inv v s r V) as [[_ ->]|(_ & _ & properties & P & Fold)];
    [by left|].
  destruct (enrich_fold_exactly v properties r Fold) as (_ & Exact & _).
  destruct (Exact k x L) as [?|(N & ps & M & D)]; [by left|].
  right. split; [done|]. exists properties, ps.
  destruct (get_properties_Ok s properties P) as [[_ ->]|P']; [|done].
  by rewrite lookup_empty in M.
Qed.

(** X1: the validator invents nothing. When it succeeds, every binding of
    the result is either a binding the caller supplied, or binds a
    property the caller omitted to the default its declared schema
    carries. *)
Theorem validate_adds_only_defaults `{Libraries} (v s r : gmap string json)
    (k : string) (x : json) :
  validate_variables_against_schema v s = Ok r →
  r !! k = Some x →
  v !! k = Some x ∨
  (v !! k = None ∧
   ∃ properties prop_schema,
     s !! "properties" = Some (JObj properties) ∧
     properties !! k = Some prop_schema ∧
     carries_default prop_schema x).
Proof. apply validate_Ok_bindings. Qed.

Lemma validate_adds_only_defaults_witness :
  @validate_variables_against_schema example_libraries example_variables example_schema
    = Ok example_enriched ∧
  example_enriched !! "tone" = Some (JStr "formal") ∧
  (example_variables !! "tone" = Some (JStr "formal") ∨
   (example_variables !! "tone" = None ∧
    ∃ properties prop_schema,
      example_schema !! "properties" = Some (JObj properties) ∧
      properties !! "tone" = Some prop_schema ∧
      carries_default prop_schema (JStr "formal"))).
Proof.
  split; [vm_compute; reflexivity|]. split; [reflexivity|].
  apply (@validate_adds_only_defaults example_libraries example_variables example_schema
           example_enriched "tone" (JStr "formal")); [vm_compute; reflexivity | reflexivity].
Defined.

Lemma enrich_fold_fixed (r properties : gmap string json) :
  (∀ k ps, properties !! k = Some ps → enrich_step k ps (Ok r) = Ok r) →
  map_fold enrich_step (Ok r) properties = Ok r.
Proof.
  apply (map_fold_weak_ind
           (λ acc (m : gmap string json),
              (∀ k ps, m !! k = Some ps → enrich_step k ps (Ok r) = Ok r) → acc = Ok r)).
  - done.
  - intros i ps m acc Hi IH Step. rewrite IH.
    + apply Step. by rewrite lookup_insert_eq.
    + intros k ps' M. apply Step. rewrite lookup_insert_ne; [done|congruence].
Qed.

(** X2: validating twice changes nothing more. If the validator returned
    [r] for [v] and also accepts [r] itself (defaults are injected without
    being checked, so this is a real condition), then validating [r]
    returns [r]. *)
Theorem validate_idempotent `{Libraries} (v s r : gmap string json) :
  validate_variables_against_schema v s = Ok r →
  iter_errors s r = Ok [] →
  validate_variables_against_schema r s = Ok r.
Proof.
  intros V A.
  destruct (validate_Ok_inv v s r V) as [[Empty ->]|(N & _ & properties & P & Fold)].
  { unfold validate_variables_against_schema. by rewrite bool_decide_true. }
  rewrite (validate_accepted r s N A), P. cbn.
  apply enrich_fold_fixed. intros k ps M.
  destruct (enrich_fold_exactly v properties r Fold) as (Keep & _ & Seen).
  destruct (enrich_step_cases k ps r)
    as [(x & L & S)|(L & [(d & D & S)|[(C & S)|(msg & S & [C|C])]])]; [done| |done| |].
  - destruct (v !! k) as [y|] eqn:Vk; [apply Keep in Vk; congruence|].
    destruct (Seen k ps M Vk) as [(d' & _ & L')|(C & _)]; [congruence|].
    destruct D as (m & -> & D). cbn in C. rewrite D in C. discriminate.
  - destruct (v !! k) as [y|] eqn:Vk; [apply Keep in Vk; congruence|].
    destruct (Seen k ps M Vk) as [(d' & _ & L')|(C' & _)]; congruence.
  - destruct (v !! k) as [y|] eqn:Vk; [apply Keep in Vk; congruence|].
    destruct (Seen k ps M Vk) as [(d' & _ & L')|(C' & _)]; congruence.
Qed.

Lemma validate_idempotent_witness :
  @validate_variables_against_schema example_libraries example_variables example_schema
    = Ok example_enriched ∧
  @iter_errors example_libraries example_schema example_enriched = Ok [] ∧
  @validate_variables_against_schema example_libraries example_enriched example_schema
    = Ok example_enriched.
Proof.
  split; [vm_compute; reflexivity|]. split; [vm_compute; reflexivity|].
  apply (@validate_idempotent example_libraries example_variables example_schema
           example_enriched); vm_compute; reflexivity.
Defined.

(** X3: a declared property whose sub-schema is [true], [false], [null] or
    a number is accepted by the validator when the caller omits it, and
    then makes the enrichment raise a [TypeError]: the validator call
    fails, but not with the [ValueError] it documents. *)
Theorem scalar_subschema_raises_TypeError `{Libraries}
    (v s properties : gmap string json) (k : string) (prop_schema : json) :
  iter_errors s v = Ok [] →
  s !! "properties" = Some (JObj properties) →
  properties !! k = Some prop_schema →
  v !! k = None →
  not_a_container prop_schema →
  ∃ msg, validate_variables_against_schema v s = Raise (TypeError msg).
Proof.
  intros A P M V Scalar.
  assert (N : size s ≠ 0%nat).
  { intros Z. apply map_size_empty_inv in Z. subst s. by rewrite lookup_empty in P. }
  rewrite (validate_accepted v s N A). unfold get_properties. rewrite P. cbn.
  destruct (map_fold enrich_step (Ok v) properties) as [r|e] eqn:Fold.
  - destruct (enrich_fold_exactly v properties r Fold) as (_ & _ & Seen).
    destruct (Seen k prop_schema M V) as [(d & (m & -> & _) & _)|(C & _)]; [done|].
    by destruct prop_schema.
  - destruct (enrich_fold_raises_TypeError v properties e Fold) as [msg ->]. eauto.
Qed.

Lemma scalar_subschema_raises_TypeError_witness :
  @iter_errors example_libraries boolean_schema ∅ = Ok [] ∧
  boolean_schema !! "properties" = Some (JObj {[ "flag" := JBool true ]}) ∧
  ({[ "flag" := JBool true ]} : gmap string json) !! "flag" = Some (JBool true) ∧
  (∅ : gmap string json) !! "flag" = None ∧
  not_a_container (JBool true) ∧
  ∃ msg, @validate_variables_against_schema example_libraries ∅ boolean_schema
         = Raise (TypeError msg).
Proof.
  split; [vm_compute; reflexivity|]. split; [reflexivity|]. split; [reflexivity|].
  split; [reflexivity|]. split; [exact I|].
  apply (@scalar_subschema_raises_TypeError example_libraries ∅ boolean_schema
           {[ "flag" := JBool true ]} "flag" (JBool true));
    [vm_compute; reflexivity | reflexivity | reflexivity | reflexivity | exact I].
Defined.

(** X4: the only [ValueError]s are the validator's. When the call raises
    [ValueError msg], either the validator reported at least one error and
    [msg] is the heading followed by one [path: message] line per error,
    or the validator itself raised that [ValueError]; the enrichment never
    raises one. *)
Theorem validate_ValueError_inv `{Libraries} (v s : gmap string json) (msg : string) :
  validate_variables_against_schema v s = Raise (ValueError msg) →
  (∃ error errors,
     iter_errors s v = Ok (error :: errors) ∧
     msg = "Variable validation failed:" ++ nl ++
           String.concat nl (map error_line (error :: errors))) ∨
  iter_errors s v = Raise (ValueError msg).
Proof.
  unfold validate_variables_against_schema. case_bool_decide as Empty; [discriminate|].
  destruct (iter_errors s v) as [[|error errors]|e] eqn:E; cbn.
  - destruct (get_properties s) as [properties|e] eqn:P; cbn.
    + intros Fold.
      destruct (enrich_fold_raises_TypeError v properties _ Fold) as [? ?]. discriminate.
    + intros [= ->]. unfold get_properties in P.
      destruct (s !! "properties") as [[]|]; discriminate.
  - intros [= <-]. left. eauto.
  - intros [= ->]. by right.
Qed.

Lemma validate_ValueError_inv_witness :
  @validate_variables_against_schema example_libraries ∅ example_schema
  = Raise (ValueError ("Variable validation failed:" ++ nl ++
                       "root: 'name' is a required property")) ∧
  ((∃ error errors,
      @iter_errors example_libraries example_schema ∅ = Ok (error :: errors) ∧
      "Variable validation failed:" ++ nl ++ "root: 'name' is a required property"
      = "Variable validation failed:" ++ nl ++
        String.concat nl (map error_line (error :: errors))) ∨
   @iter_errors example_libraries example_schema ∅
   = Raise (ValueError ("Variable validation failed:" ++ nl ++
                        "root: 'name' is a required property"))).
Proof.
  split; [vm_compute; reflexivity|].
  apply (@validate_ValueError_inv example_libraries ∅ example_schema).
  vm_compute; reflexivity.
Defined.

Lemma example_step_cases prop_name prop_schema examples :
  example_step prop_name prop_schema (Ok examples) =
  match example_of prop_name prop_schema with
  | Ok (Some x) => Ok (<[prop_name := x]> examples)
  | Ok None => Ok examples
  | Raise e => Raise e
  end.
Proof. unfold example_step. cbn. by destruct (example_of _ _) as [[]|]. Qed.

(** The examples after the loop, property by property. *)
Lemma generate_fold (properties examples : gmap string json) :
  map_fold example_step (Ok ∅) properties = Ok examples →
  ∀ k,
    match properties !! k with
    | Some ps => example_of k ps = Ok (examples !! k)
    | None => examples !! k = None
    end.
Proof.
  revert examples.
  apply (map_fold_weak_ind
           (λ acc (m : gmap string json),
              ∀ examples, acc = Ok examples →
                ∀ k, match m !! k with
                     | Some ps => example_of k ps = Ok (examples !! k)
                     | None => examples !! k = None
                     end)).
  - intros examples [= <-] k. by rewrite !lookup_empty.
  - intros i ps m acc Hi IH examples' E k.
    destruct acc as [examples|e]; [|discriminate].
    rewrite example_step_cases in E. specialize (IH examples eq_refl).
    assert (Fresh : examples !! i = None).
    { specialize (IH i). by rewrite Hi in IH. }
    destruct (decide (i = k)) as [<-|N].
    + rewrite lookup_insert_eq.
      destruct (example_of i ps) as [[x|]|e]; try discriminate; injection E as <-.
      * by rewrite lookup_insert_eq.
      * by rewrite Fresh.
    + rewrite lookup_insert_ne by done.
      assert (examples' !! k = examples !! k) as ->; [|apply IH].
      destruct (example_of i ps) as [[x|]|e]; try discriminate; injection E as <-;
        [by rewrite lookup_insert_ne|done].
Qed.

Lemma generate_Ok_inv (s examples : gmap string json) :
  generate_example_variables s = Ok examples →
  ∃ properties, get_properties s = Ok properties ∧
                map_fold example_step (Ok ∅) properties = Ok examples.
Proof.
  unfold generate_example_variables.
  destruct (get_properties s) as [properties|e]; cbn; [eauto|discriminate].
Qed.

Lemma generate_picks (s properties examples : gmap string json) :
  generate_example_variables s = Ok examples →
  s !! "properties" = Some (JObj properties) →
  (∀ k, is_Some (examples !! k) → is_Some (properties !! k)) ∧
  (∀ k m x, properties !! k = Some (JObj m) →
            m !! "example" = Some x → examples !! k = Some x) ∧
  (∀ k m x, properties !! k = Some (JObj m) →
            m !! "example" = None → m !! "default" = Some x →
            examples !! k = Some x) ∧
  (∀ k m x l, properties !! k = Some (JObj m) →
              m !! "example" = None → m !! "default" = None →
              m !! "enum" = Some (JArr (x :: l)) →
              examples !! k = Some x).
Proof.
  intros G P. destruct (generate_Ok_inv s examples G) as (properties' & P' & Fold).
  unfold get_properties in P'. rewrite P in P'. injection P' as <-.
  pose proof (generate_fold properties examples Fold) as F.
  repeat split.
  - intros k S. specialize (F k). destruct (properties !! k); [eauto|].
    rewrite F in S. by destruct S.
  - intros k m x M E. specialize (F k). rewrite M in F.
    unfold example_of in F. cbn in F.
    rewrite bool_decide_true in F by (rewrite E; eauto). cbn in F. rewrite E in F.
    cbn in F. congruence.
  - intros k m x M E D. specialize (F k). rewrite M in F.
    unfold example_of in F. cbn in F.
    rewrite bool_decide_false in F by (rewrite E; by intros [? ?]). cbn in F.
    rewrite bool_decide_true in F by (rewrite D; eauto). cbn in F. rewrite D in F.
    cbn in F. congruence.
  - intros k m x l M E D En. specialize (F k). rewrite M in F.
    unfold example_of in F. cbn in F.
    rewrite bool_decide_false in F by (rewrite E; by intros [? ?]). cbn in F.
    rewrite bool_decide_false in F by (rewrite D; by intros [? ?]). cbn in F.
    rewrite bool_decide_true in F by (rewrite En; eauto). cbn in F. rewrite En in F.
    cbn in F. congruence.
Qed.

(** X5: what [generate_example_variables] picks. When it returns, it
    binds declared properties only; a property whose schema has an
    [example] gets that example, even if it also has a [default]; without
    an [example], a property with a [default] gets the default; and with
    neither but a non-empty [enum] list, the first value of the list. *)
Theorem generate_example_variables_picks (s properties examples : gmap string json) :
  generate_example_variables s = Ok examples →
  s !! "properties" = Some (JObj properties) →
  (∀ k, is_Some (examples !! k) → is_Some (properties !! k)) ∧
  (∀ k m x, properties !! k = Some (JObj m) →
            m !! "example" = Some x → examples !! k = Some x) ∧
  (∀ k m x, properties !! k = Some (JObj m) →
            m !! "example" = None → m !! "default" = Some x →
            examples !! k = Some x) ∧
  (∀ k m x l, properties !! k = Some (JObj m) →
              m !! "example" = None → m !! "default" = None →
              m !! "enum" = Some (JArr (x :: l)) →
              examples !! k = Some x).
Proof. apply generate_picks. Qed.

Lemma generate_example_variables_picks_witness :
  generate_example_variables catalogue_schema = Ok catalogue_examples ∧
  catalogue_schema !! "properties" =
    Some (JObj {[ "city" := JObj {[ "example" := JStr "Paris"; "default" := JStr "Rome" ]};
                  "tone" := JObj {[ "default" := JStr "formal" ]};
                  "size" := JObj {[ "enum" := JArr [JStr "S"; JStr "M"] ]};
                  "count" := JObj {[ "type" := JStr "integer" ]} ]}) ∧
  catalogue_examples !! "city" = Some (JStr "Paris") ∧
  catalogue_examples !! "tone" = Some (JStr "formal") ∧
  catalogue_examples !! "size" = Some (JStr "S").
Proof.
  split; [vm_compute; reflexivity|]. split; [reflexivity|].
  destruct (generate_example_variables_picks catalogue_schema
              {[ "city" := JObj {[ "example" := JStr "Paris"; "default" := JStr "Rome" ]};
                 "tone" := JObj {[ "default" := JStr "formal" ]};
                 "size" := JObj {[ "enum" := JArr [JStr "S"; JStr "M"] ]};
                 "count" := JObj {[ "type" := JStr "integer" ]} ]}
              catalogue_examples)
    as (_ & Example & Default & Enum); [vm_compute; reflexivity | reflexivity |].
  split; [|split].
  - apply (Example "city" {[ "example" := JStr "Paris"; "default" := JStr "Rome" ]});
      reflexivity.
  - apply (Default "tone" {[ "default" := JStr "formal" ]}); reflexivity.
  - apply (Enum "size" {[ "enum" := JArr [JStr "S"; JStr "M"] ]} (JStr "S") [JStr "M"]);
      reflexivity.
Defined.

(** X6: the generated examples cover what the validator fills in. If the
    validator bound an omitted variable [k] (to a default), then
    [generate_example_variables] on the same schema binds [k] too, and to
    the same value unless the property's schema has an [example]. *)
Theorem generated_examples_cover_defaults `{Libraries}
    (v s r examples : gmap string json) (k : string) (x : json) :
  validate_variables_against_schema v s = Ok r →
  generate_example_variables s = Ok examples →
  v !! k = None →
  r !! k = Some x →
  ∃ y, examples !! k = Some y ∧
       (∀ properties m, s !! "properties" = Some (JObj properties) →
                        properties !! k = Some (JObj m) →
                        m !! "example" = None → y = x).
Proof.
  intros V G N L.
  destruct (validate_Ok_bindings v s r k x V L)
    as [?|(_ & properties & ps & P & M & (m & -> & D))]; [congruence|].
  destruct (generate_picks s properties examples G P)
    as (_ & Example & Default & _).
  destruct (m !! "example") as [e|] eqn:E.
  - exists e. split; [by eapply Example|].
    intros properties' m' P' M' E'. congruence.
  - exists x. split; [by eapply Default|]. done.
Qed.

Lemma generated_examples_cover_defaults_witness :
  @validate_variables_against_schema example_libraries example_variables example_schema
    = Ok example_enriched ∧
  generate_example_variables example_schema
    = Ok {[ "name" := JStr "example_name"; "tone" := JStr "formal" ]} ∧
  example_variables !! "tone" = None ∧
  example_enriched !! "tone" = Some (JStr "formal") ∧
  ∃ y, ({[ "name" := JStr "example_name"; "tone" := JStr "formal" ]}
          : gmap string json) !! "tone" = Some y ∧
       (∀ properties m, example_schema !! "properties" = Some (JObj properties) →
                        properties !! "tone" = Some (JObj m) →
                        m !! "example" = None → y = JStr "formal").
Proof.
  split; [vm_compute; reflexivity|]. split; [vm_compute; reflexivity|].
  split; [reflexivity|]. split; [reflexivity|].
  apply (@generated_examples_cover_defaults example_libraries example_variables
           example_schema example_enriched
           {[ "name" := JStr "example_name"; "tone" := JStr "formal" ]}
           "tone" (JStr "formal"));
    [vm_compute; reflexivity | vm_compute; reflexivity | reflexivity | reflexivity].
Defined.

(** * More on the providers *)

Lemma get_provider_cases (getenv : string → option string)
    (world_vendor : string → vendor) (name : string) :
  (name ∈ list_providers ∧
   ((truthy_str (getenv (api_key_variable name)) = true ∧
     ∃ llm_provider,
       LLMFactory.get_provider getenv world_vendor name = Ok llm_provider ∧
       execute llm_provider = vendor_execute (world_vendor name)) ∨
    (truthy_str (getenv (api_key_variable name)) = false ∧
     LLMFactory.get_provider getenv world_vendor name
     = Raise (ValueError (api_key_variable name ++ " environment variable not set"))))) ∨
  ((name ∉ list_providers) ∧
   LLMFactory.get_provider getenv world_vendor name
   = Raise (ValueError ("Unknown LLM provider: " ++ name ++
                        ". Available providers: openai, gemini, claude"))).
Proof.
  unfold LLMFactory.get_provider, api_key_variable, list_providers, LLMFactory._providers,
    OpenAIProvider.new, GeminiProvider.new, ClaudeProvider.new.
  destruct (String.eqb_spec name "openai") as [->|N1].
  { left. split; [set_solver|]. cbn. destruct (truthy_str _); eauto 6. }
  destruct (String.eqb_spec name "gemini") as [->|N2].
  { left. split; [set_solver|]. cbn. destruct (truthy_str _); eauto 6. }
  destruct (String.eqb_spec name "claude") as [->|N3].
  { left. split; [set_solver|]. cbn. destruct (truthy_str _); eauto 6. }
  right. split; [|reflexivity].
  intros In. repeat (apply elem_of_cons in In as [?|In]; [done|]).
  by apply elem_of_nil in In.
Qed.

(** X7: the factory resolves a name exactly when it is one of
    [list_providers()] and the API key variable of that provider is set to
    a non-empty string; and whatever it raises is a [ValueError]. *)
Theorem get_provider_resolves (getenv : string → option string)
    (world_vendor : string → vendor) (name : string) :
  ((∃ llm_provider, LLMFactory.get_provider getenv world_vendor name = Ok llm_provider) ↔
   name ∈ list_providers ∧ truthy_str (getenv (api_key_variable name)) = true) ∧
  (∀ e, LLMFactory.get_provider getenv world_vendor name = Raise e →
        ∃ msg, e = ValueError msg).
Proof.
  destruct (get_provider_cases getenv world_vendor name)
    as [(In & [(T & p & G & _)|(T & G)])|(Out & G)]; rewrite G.
  - split; [split; eauto|discriminate].
  - split; [split; [intros [? ?]; discriminate|intros [_ ?]; congruence]|].
    intros e [= <-]. eauto.
  - split; [split; [intros [? ?]; discriminate|intros [? _]; done]|].
    intros e [= <-]. eauto.
Qed.

(** X8: on a schema without
    [properties], or whose [properties] is a dict of dicts,
    [get_variable_description] does not raise; it returns the empty string
    for a name that is not declared and, for a declared one, its
    [description] or the empty string when it has none. *)
Theorem get_variable_description_total (s : gmap string json) (variable_name : string) :
  (s !! "properties" = None ∨
   ∃ properties,
     s !! "properties" = Some (JObj properties) ∧
     ∀ k ps, properties !! k = Some ps → ∃ m, ps = JObj m) →
  ∃ d, get_variable_description s variable_name = Ok d ∧
       (∀ properties, s !! "properties" = Some (JObj properties) →
                      properties !! variable_name = None → d = JStr "") ∧
       (s !! "properties" = None → d = JStr "") ∧
       (∀ properties m, s !! "properties" = Some (JObj properties) →
                        properties !! variable_name = Some (JObj m) →
                        d = default (JStr "") (m !! "description")).
Proof.
  unfold get_variable_description.
  intros [N|(properties & P & Dicts)].
  - rewrite N. cbn. rewrite lookup_empty.
    rewrite bool_decide_false by (by intros [? ?]). cbn.
    exists (JStr ""). repeat split; congruence.
  - rewrite P. cbn. destruct (properties !! variable_name) as [ps|] eqn:L.
    + destruct (Dicts _ _ L) as [m ->].
      rewrite bool_decide_true by eauto. cbn.
      exists (default (JStr "") (m !! "description")). split; [done|].
      repeat split; congruence.
    + rewrite bool_decide_false by (by intros [? ?]). cbn.
      exists (JStr ""). repeat split; congruence.
Qed.

Lemma get_variable_description_total_witness :
  (example_schema !! "properties" = None ∨
   ∃ properties,
     example_schema !! "properties" = Some (JObj properties) ∧
     ∀ k ps, properties !! k = Some ps → ∃ m, ps = JObj m) ∧
  ∃ d, get_variable_description example_schema "tone" = Ok d ∧
       (∀ properties, example_schema !! "properties" = Some (JObj properties) →
                      properties !! "tone" = None → d = JStr "") ∧
       (example_schema !! "properties" = None → d = JStr "") ∧
       (∀ properties m, example_schema !! "properties" = Some (JObj properties) →
                        properties !! "tone" = Some (JObj m) →
                        d = default (JStr "") (m !! "description")).
Proof.
  assert (W : example_schema !! "properties" = None ∨
              ∃ properties,
                example_schema !! "properties" = Some (JObj properties) ∧
                ∀ k ps, properties !! k = Some ps → ∃ m, ps = JObj m).
  { right. eexists. split; [reflexivity|]. intros k ps L.
    apply lookup_insert_Some in L as [[_ <-]|[_ L]]; [eauto|].
    apply lookup_singleton_Some in L as [_ <-]. eauto. }
  split; [exact W|].
  apply (get_variable_description_total example_schema "tone" W).
Defined.

(** * More on the cost *)

Lemma cost_sign (c : provider_class) (model : string) (t : Z) :
  ∃ x, calculate_cost_of c t model = Ok x ∧
       ((0 ≤ t)%Z → (0 <= x)%Q) ∧
       ((t ≤ 0)%Z → (x <= 0)%Q) ∧
       (t = 0%Z → (x == 0)%Q).
Proof.
  destruct (calculate_cost_of_total c t model) as (p & Hp & E).
  exists (cost_at p t). split; [done|].
  destruct (pricing_nonneg _ _ _ Hp) as [Hi Ho].
  assert (Z0 : (cost_at p 0 == 0)%Q) by reflexivity.
  split; [|split].
  - intros L. rewrite <- Z0. by apply cost_at_mono.
  - intros L. rewrite <- Z0. by apply cost_at_mono.
  - intros ->. exact Z0.
Qed.

(** X9: the cost has the sign of the token count. Whatever the provider
    class and the model name, a non-negative token count is priced at a
    non-negative cost (so a counter can be incremented by it) and a
    non-positive one at a non-positive cost; no token costs nothing. *)
Theorem calculate_cost_sign (c : provider_class) (model : string) (t : Z) :
  ∃ x, calculate_cost_of c t model = Ok x ∧
       ((0 ≤ t)%Z → (0 <= x)%Q) ∧
       ((t ≤ 0)%Z → (x <= 0)%Q) ∧
       (t = 0%Z → (x == 0)%Q).
Proof. apply cost_sign. Qed.






(** * More on the route *)

(** Closes a branch of [try_block_outcomes] that ends in an [HTTPException]. *)
Ltac route_exits :=
  first [ right; left; eexists _, _; repeat split; reflexivity
        | left; eexists _, _; split; [reflexivity|]; split; [auto|reflexivity] ].

(** Every way through the [try] block and its handlers, with what each
    leaves in the state. *)
Lemma try_block_outcomes `{Libraries} (w : World) (prompt_id : Z)
    (execution_request : schemas.PromptExecutionRequest) (current_user_id : Z)
    (start_time : Q) (s1 : state) :
  let '(r, s2) := try_except
                    (execute_prompt_try w prompt_id execution_request current_user_id start_time)
                    (execute_prompt_except prompt_id execution_request current_user_id start_time)
                    s1 in
  (∃ c d, r = Raise (HTTPException c d) ∧ (c = 404%Z ∨ c = 400%Z) ∧ s2 = s1) ∨
  (∃ e elapsed,
      r = Raise (HTTPException 500 ("Execution failed: " ++ str_exn e)) ∧
      prompt_execution_history s2 =
        (prompt_execution_history s1 ++
         [error_history prompt_id execution_request current_user_id
            (Z.of_nat (length (prompt_execution_history s1)) + 1) elapsed e])%list ∧
      expert_prompts s2 = expert_prompts s1 ∧
      active_executions s2 = active_executions s1) ∨
  (∃ resp row,
      r = Ok resp ∧
      prompt_execution_history s2 = (prompt_execution_history s1 ++ [row])%list ∧
      models.id row = (Z.of_nat (length (prompt_execution_history s1)) + 1)%Z ∧
      models.user_id row = current_user_id ∧
      models.prompt_id row = prompt_id ∧
      models.status row = "success" ∧
      schemas.execution_id resp = models.id row ∧
      Some (schemas.output resp) = models.output row ∧
      schemas.resp_llm_provider resp = models.llm_provider row ∧
      schemas.resp_llm_model resp = models.llm_model row ∧
      schemas.tokens_used resp = models.tokens_used row ∧
      schemas.cost resp = models.cost row ∧
      schemas.execution_time resp = models.execution_time row ∧
      expert_prompts s2 = expert_prompts s1 ∧
      active_executions s2 = active_executions s1).
Proof.
  unfold try_except, execute_prompt_try, db_query_prompt, except_ValueError,
    except_KeyError, await_execute, inc_prompt_executions_total,
    observe_prompt_execution_duration, inc_llm_tokens_used, inc_llm_cost_total,
    db_add_commit, time_time.
  unfold_M. cbn.
  destruct (expert_prompts s1 !! prompt_id) as [prompt|] eqn:Found; cbn;
    [|route_exits].
  destruct (validate_variables_against_schema _ _) as [vv|[]] eqn:V; cbn;
    try route_exits.
  destruct (LLMFactory.get_provider _ _ _) as [llm_provider|[]] eqn:P; cbn;
    try route_exits.
  destruct (str_format _ _) as [filled|[]] eqn:F; cbn; try route_exits.
  destruct (execute llm_provider _ _ _ _) as [[res|e] dt] eqn:X; cbn;
    try route_exits.
  destruct (calculate_cost llm_provider _ _) as [cost|e] eqn:C; cbn;
    try route_exits.
  unfold counter_inc; cbn.
  destruct (Qle_bool 0 (inject_Z (res_tokens_used res))); cbn; try route_exits.
  destruct (Qle_bool 0 cost); cbn; try route_exits.
  right; right. eexists _, (success_history _ _ _ vv res _ _ cost _).
  repeat split; reflexivity.
Qed.

(** X11: the caller only ever sees a response or an [HTTPException] with
    status 404, 400 or 500; no other exception leaves the route. A 404 or
    400 leaves the whole state as it was at entry (nothing written, no
    metric touched); in every case the prompts are untouched and the
    history keeps its rows, with at most one appended. *)
Theorem execute_prompt_outcomes `{Libraries} (w : World) (prompt_id : Z)
    (execution_request : schemas.PromptExecutionRequest) (current_user_id : Z)
    (s : state) :
  let '(r, s') := execute_prompt w prompt_id execution_request current_user_id s in
  ((∃ resp, r = Ok resp) ∨
   (∃ c d, r = Raise (HTTPException c d) ∧ (c = 404 ∨ c = 400 ∨ c = 500)%Z)) ∧
  (∀ c d, r = Raise (HTTPException c d) → c ≠ 500%Z → s' = s) ∧
  expert_prompts s' = expert_prompts s ∧
  (prompt_execution_history s' = prompt_execution_history s ∨
   ∃ row, prompt_execution_history s' = (prompt_execution_history s ++ [row])%list).
Proof.
  pose proof (execute_prompt_unfold w prompt_id execution_request current_user_id s) as U.
  pose proof (try_block_outcomes w prompt_id execution_request current_user_id (now s)
                (set_active_executions (active_executions s + 1)%Z s)) as C.
  cbv zeta in U. destruct (try_except _ _ _) as [r2 s2]. rewrite U.
  destruct C as [(c & d & -> & St & ->)|[(e & elapsed & -> & Hist & Pr & _)
                   |(resp & row & -> & Hist & _ & _ & _ & _ & _ & _ & _ & _ & _ & _ & _ & Pr & _)]].
  - split; [right; exists c, d; split; [done|]; destruct St; auto|].
    split; [|split; [done|by left]].
    intros _ _ _ _. destruct s. unfold set_active_executions. cbn. f_equal. lia.
  - split; [right; eexists _, _; split; [done|]; auto|].
    split; [intros c d [= <- _] N; done|]. split; [exact Pr|]. right. eauto.
  - split; [left; eauto|]. split; [discriminate|]. split; [exact Pr|]. right. eauto.
Qed.

Lemma route_keeps_keys `{Libraries} (w : World) (prompt_id : Z)
    (execution_request : schemas.PromptExecutionRequest) (current_user_id : Z)
    (s : state) :
  keyed_by_position (prompt_execution_history s) →
  keyed_by_position
    (prompt_execution_history
       (execute_prompt w prompt_id execution_request current_user_id s).2).
Proof.
  intros K.
  pose proof (execute_prompt_unfold w prompt_id execution_request current_user_id s) as U.
  pose proof (try_block_outcomes w prompt_id execution_request current_user_id (now s)
                (set_active_executions (active_executions s + 1)%Z s)) as C.
  cbv zeta in U. destruct (try_except _ _ _) as [r2 s2]. rewrite U. cbn.
  assert (Grow : ∀ row,
            models.id row = (Z.of_nat (length (prompt_execution_history s)) + 1)%Z →
            keyed_by_position (prompt_execution_history s ++ [row])).
  { intros row Id i r L. apply lookup_app_Some in L as [L|[Len L]]; [by apply K|].
    apply list_lookup_singleton_Some in L as [Z ->]. rewrite Id. lia. }
  destruct C as [(c & d & -> & St & ->)|[(e & elapsed & -> & Hist & _)
                   |(resp & row & -> & Hist & Id & _)]]; cbn in *.
  - exact K.
  - rewrite Hist. by apply Grow.
  - rewrite Hist. by apply Grow.
Qed.



Lemma get_provider_prices (getenv : string → option string)
    (world_vendor : string → vendor) (name : string) (llm_provider : LLMProvider) :
  LLMFactory.get_provider getenv world_vendor name = Ok llm_provider →
  ∃ c, calculate_cost llm_provider = calculate_cost_of c.
Proof.
  unfold LLMFactory.get_provider, OpenAIProvider.new, GeminiProvider.new,
    ClaudeProvider.new.
  intros G.
  repeat (destruct (String.eqb name _);
          [destruct (truthy_str _); [|discriminate]; injection G as <-; cbn|]).
  - by exists OpenAI.
  - by exists Gemini.
  - by exists Claude.
  - discriminate.
Qed.

(** X13: when every step succeeds and the vendor reports a non-negative
    token count, the route returns. The response carries the vendor's
    output and token count, the cost [calculate_cost] gives for them and
    the time the vendor took; the one row appended says the same under
    the key returned as [execution_id]; and the four metrics are advanced
    by one execution, one observation, the tokens and the cost. *)
Theorem execute_prompt_success `{Libraries} (w : World) (prompt_id : Z)
    (execution_request : schemas.PromptExecutionRequest) (current_user_id : Z)
    (s : state) (prompt : models.ExpertPrompt) (vv : gmap string json)
    (llm_provider : LLMProvider) (filled : string) (res : execution_result) (dt : Q) :
  expert_prompts s !! prompt_id = Some prompt →
  validate_variables_against_schema (schemas.variables execution_request)
    (models.variables_schema prompt) = Ok vv →
  LLMFactory.get_provider (getenv w) (vendors w)
    (py_or (schemas.llm_provider execution_request) "openai") = Ok llm_provider →
  str_format (models.template prompt) vv = Ok filled →
  execute llm_provider filled (py_or (schemas.llm_model execution_request) "gpt-4")
    (schemas.temperature execution_request) (schemas.max_tokens execution_request)
  = (Ok res, dt) →
  (0 ≤ res_tokens_used res)%Z →
  ∃ cost resp row s',
    calculate_cost llm_provider (res_tokens_used res)
      (py_or (schemas.llm_model execution_request) "gpt-4") = Ok cost ∧
    execute_prompt w prompt_id execution_request current_user_id s = (Ok resp, s') ∧
    schemas.output resp = res_output res ∧
    schemas.tokens_used resp = res_tokens_used res ∧
    schemas.cost resp = cost ∧
    schemas.execution_time resp = (now s' - now s)%Q ∧
    now s' = (now s + dt)%Q ∧
    schemas.status resp = "success" ∧
    schemas.execution_id resp
    = (Z.of_nat (length (prompt_execution_history s)) + 1)%Z ∧
    prompt_execution_history s' = (prompt_execution_history s ++ [row])%list ∧
    row = success_history prompt_id current_user_id (schemas.execution_id resp) vv res
            (py_or (schemas.llm_provider execution_request) "openai")
            (py_or (schemas.llm_model execution_request) "gpt-4")
            cost (schemas.execution_time resp) ∧
    prompt_executions_total s'
      !! (prompt_id, py_or (schemas.llm_provider execution_request) "openai", "success")
    = Some (default 0 (prompt_executions_total s
              !! (prompt_id, py_or (schemas.llm_provider execution_request) "openai",
                  "success")) + 1)%Q ∧
    prompt_execution_duration s'
      !! (prompt_id, py_or (schemas.llm_provider execution_request) "openai")
    = Some (default [] (prompt_execution_duration s
              !! (prompt_id, py_or (schemas.llm_provider execution_request) "openai"))
            ++ [schemas.execution_time resp])%list ∧
    llm_tokens_used s'
      !! (py_or (schemas.llm_provider execution_request) "openai",
          py_or (schemas.llm_model execution_request) "gpt-4")
    = Some (default 0 (llm_tokens_used s
              !! (py_or (schemas.llm_provider execution_request) "openai",
                  py_or (schemas.llm_model execution_request) "gpt-4"))
            + inject_Z (res_tokens_used res))%Q ∧
    llm_cost_total s'
      !! (py_or (schemas.llm_provider execution_request) "openai",
          py_or (schemas.llm_model execution_request) "gpt-4")
    = Some (default 0 (llm_cost_total s
              !! (py_or (schemas.llm_provider execution_request) "openai",
                  py_or (schemas.llm_model execution_request) "gpt-4"))
            + cost)%Q.
Proof.
  intros Found V P F X Tokens.
  destruct (get_provider_prices _ _ _ _ P) as [c Pc].
  destruct (cost_sign c (py_or (schemas.llm_model execution_request) "gpt-4")
              (res_tokens_used res)) as (cost & C & Pos & _).
  rewrite <- Pc in C. specialize (Pos Tokens).
  assert (T1 : Qle_bool 0 (inject_Z (res_tokens_used res)) = true).
  { apply Qle_bool_iff. by rewrite <- (Zle_Qle 0). }
  assert (T2 : Qle_bool 0 cost = true) by by apply Qle_bool_iff.
  pose proof (execute_prompt_unfold w prompt_id execution_request current_user_id s) as U.
  cbv zeta in U.
  unfold try_except, execute_prompt_try, db_query_prompt, except_ValueError,
    except_KeyError, await_execute, inc_prompt_executions_total,
    observe_prompt_execution_duration, inc_llm_tokens_used, inc_llm_cost_total,
    db_add_commit, time_time in U.
  unfold_M. cbn in U. rewrite Found in U. cbn in U. rewrite V, P, F in U.
  rewrite X in U. cbn in U. rewrite C in U. cbn in U.
  unfold counter_inc in U. cbn in U. rewrite T1 in U. cbn in U. rewrite T2 in U.
  cbn in U.
  eexists cost, _, _, _. split; [exact C|]. split; [exact U|]. cbn.
  repeat split; by rewrite ?lookup_insert_eq.
Qed.

Lemma execute_prompt_success_witness :
  expert_prompts example_state !! 1%Z = Some example_prompt ∧
  @validate_variables_against_schema example_libraries
    (schemas.variables example_request) (models.variables_schema example_prompt)
  = Ok example_enriched ∧
  LLMFactory.get_provider (getenv example_world) (vendors example_world)
    (py_or (schemas.llm_provider example_request) "openai") = Ok example_openai ∧
  simple_format (models.template example_prompt) example_enriched
  = Ok "Greet Ada in a formal tone" ∧
  execute example_openai "Greet Ada in a formal tone"
    (py_or (schemas.llm_model example_request) "gpt-4")
    (schemas.temperature example_request) (schemas.max_tokens example_request)
  = (Ok {| res_output := "Dear Greet Ada in a formal tone";
           res_tokens_used := 1000; res_model := "gpt-4" |}, 2%Q) ∧
  (0 ≤ 1000)%Z ∧
  ∃ cost resp s',
    calculate_cost example_openai 1000 "gpt-4" = Ok cost ∧
    @execute_prompt example_libraries example_world 1 example_request 7 example_state
    = (Ok resp, s') ∧
    schemas.output resp = "Dear Greet Ada in a formal tone" ∧
    schemas.tokens_used resp = 1000%Z ∧
    schemas.cost resp = cost ∧
    schemas.execution_id resp = 1%Z.
Proof.
  split; [reflexivity|]. split; [vm_compute; reflexivity|]. split; [reflexivity|].
  split; [vm_compute; reflexivity|]. split; [reflexivity|]. split; [lia|].
  destruct (@execute_prompt_success example_libraries example_world 1 example_request 7
              example_state example_prompt example_enriched example_openai
              "Greet Ada in a formal tone"
              {| res_output := "Dear Greet Ada in a formal tone";
                 res_tokens_used := 1000; res_model := "gpt-4" |} 2%Q)
    as (cost & resp & row & s' & C & Run & Out & Tok & Cost & _ & _ & _ & Id & _);
    [reflexivity | vm_compute; reflexivity | reflexivity | vm_compute; reflexivity
    | reflexivity | cbn; lia |].
  exists cost, resp, s'. repeat split; assumption.
Defined.

Lemma keyed_by_position_NoDup (table : list models.PromptExecutionHistory) :
  keyed_by_position table → NoDup table.
Proof.
  intros K. apply NoDup_alt. intros i j r Li Lj.
  apply K in Li. apply K in Lj. lia.
Qed.

Lemma NoDup_all_eq {A} (l : list A) (r : A) :
  NoDup l → (∀ x, x ∈ l → x = r) → l = [] ∨ l = [r].
Proof.
  intros N All. destruct l as [|x [|y l]]; [by left| |].
  - right. f_equal. apply All. by left.
  - exfalso. assert (x = r) as -> by (apply All; by left).
    assert (y = r) as -> by (apply All; right; by left).
    apply NoDup_cons in N as [N _]. apply N. by left.
Qed.

(** The rows [get_execution] selects, for the key of an existing row. *)
Lemma get_execution_filter (table : list models.PromptExecutionHistory)
    (r : models.PromptExecutionHistory) (current_user_id : Z) :
  keyed_by_position table → r ∈ table →
  filter (λ r', models.id r' = models.id r ∧ models.user_id r' = current_user_id) table
  = if decide (models.user_id r = current_user_id) then [r] else [].
Proof.
  intros K In. pose proof (keyed_by_position_NoDup table K) as N.
  destruct (NoDup_all_eq
              (filter (λ r', models.id r' = models.id r ∧
                             models.user_id r' = current_user_id) table) r)
    as [E|E].
  - by apply NoDup_filter.
  - intros x Hx. apply list_elem_of_filter in Hx as [[Id _] Hx].
    apply list_elem_of_lookup in Hx as [i Li]. apply list_elem_of_lookup in In as [j Lj].
    pose proof (K _ _ Li). pose proof (K _ _ Lj).
    assert (i = j) as -> by lia. congruence.
  - rewrite E. case_decide as U; [|done]. exfalso.
    assert (r ∈ filter (λ r', models.id r' = models.id r ∧
                              models.user_id r' = current_user_id) table) as F
      by (apply list_elem_of_filter; done).
    rewrite E in F. by apply elem_of_nil in F.
  - rewrite E. case_decide as U; [done|]. exfalso.
    assert (r ∈ filter (λ r', models.id r' = models.id r ∧
                              models.user_id r' = current_user_id) table) as F
      by (rewrite E; by left).
    apply list_elem_of_filter in F as [[_ ?] _]. done.
Qed.

Lemma get_execution_of_row (s : state) (r : models.PromptExecutionHistory)
    (current_user_id : Z) :
  keyed_by_position (prompt_execution_history s) →
  r ∈ prompt_execution_history s →
  (models.user_id r = current_user_id →
   get_execution (models.id r) current_user_id s = (Ok r, s)) ∧
  (models.user_id r ≠ current_user_id →
   get_execution (models.id r) current_user_id s
   = (Raise (HTTPException 404 "Execution not found"), s)).
Proof.
  intros K In. unfold get_execution. unfold_M. cbn.
  rewrite (get_execution_filter _ r current_user_id K In).
  split; intros U; case_decide; done.
Qed.

(** X14: a user reads back their own executions only. In a history whose
    keys follow the positions, [get_execution] on the key of a row returns
    exactly that row to the user it belongs to, and 404 to anyone else; it
    changes nothing. *)
Theorem get_execution_owner_only (s : state) (r : models.PromptExecutionHistory)
    (current_user_id : Z) :
  keyed_by_position (prompt_execution_history s) →
  r ∈ prompt_execution_history s →
  (models.user_id r = current_user_id →
   get_execution (models.id r) current_user_id s = (Ok r, s)) ∧
  (models.user_id r ≠ current_user_id →
   get_execution (models.id r) current_user_id s
   = (Raise (HTTPException 404 "Execution not found"), s)).
Proof. apply get_execution_of_row. Qed.

Lemma get_execution_owner_only_witness :
  keyed_by_position (prompt_execution_history recorded_state) ∧
  recorded_row ∈ prompt_execution_history recorded_state ∧
  (models.user_id recorded_row = 7%Z →
   get_execution (models.id recorded_row) 7 recorded_state
   = (Ok recorded_row, recorded_state)) ∧
  (models.user_id recorded_row ≠ 8%Z →
   get_execution (models.id recorded_row) 8 recorded_state
   = (Raise (HTTPException 404 "Execution not found"), recorded_state)).
Proof.
  assert (K : keyed_by_position (prompt_execution_history recorded_state)).
  { intros [|[|i]] r L; cbn in L; [by injection L as <-|discriminate..]. }
  assert (In : recorded_row ∈ prompt_execution_history recorded_state) by by left.
  split; [exact K|]. split; [exact In|]. split.
  - apply (get_execution_owner_only recorded_state recorded_row 7 K In).
  - apply (get_execution_owner_only recorded_state recorded_row 8 K In).
Defined.

(** X15: what the route wrote can be read back. If the keys of the
    history follow the positions and the route returns a response, then
    [get_execution] with the returned [execution_id] gives the same user a
    row with that output, token count, cost, duration, provider and model,
    and status "success"; another user gets 404 for it. *)
Theorem execute_prompt_then_get_execution `{Libraries} (w : World) (prompt_id : Z)
    (execution_request : schemas.PromptExecutionRequest) (current_user_id : Z)
    (s s' : state) (resp : schemas.PromptExecutionResponse) :
  keyed_by_position (prompt_execution_history s) →
  execute_prompt w prompt_id execution_request current_user_id s = (Ok resp, s') →
  (∃ row,
     get_execution (schemas.execution_id resp) current_user_id s' = (Ok row, s') ∧
     models.prompt_id row = prompt_id ∧
     models.output row = Some (schemas.output resp) ∧
     models.llm_provider row = schemas.resp_llm_provider resp ∧
     models.llm_model row = schemas.resp_llm_model resp ∧
     models.tokens_used row = schemas.tokens_used resp ∧
     models.cost row = schemas.cost resp ∧
     models.execution_time row = schemas.execution_time resp ∧
     models.status row = "success") ∧
  (∀ other, other ≠ current_user_id →
     get_execution (schemas.execution_id resp) other s'
     = (Raise (HTTPException 404 "Execution not found"), s')).
Proof.
  intros K Run.
  pose proof (route_keeps_keys w prompt_id execution_request current_user_id s K)
    as K'.
  pose proof (execute_prompt_unfold w prompt_id execution_request current_user_id s) as U.
  pose proof (try_block_outcomes w prompt_id execution_request current_user_id (now s)
                (set_active_executions (active_executions s + 1)%Z s)) as C.
  cbv zeta in U. destruct (try_except _ _ _) as [r2 s2].
  rewrite Run in U, K'. injection U as <- ->. cbn in K'.
  destruct C as [(c & d & [=] & _)|[(e & elapsed & [=] & _)
    |(resp' & row & [= Eq] & Hist & Id & Us & Pr & St & Eid & Out & Prov & Mod & Tok
      & Cost & Time & _)]].
  subst resp'.
  assert (In : row ∈ prompt_execution_history
                 (set_active_executions (active_executions s2 - 1)%Z s2)).
  { cbn. rewrite Hist. apply elem_of_app. right. by left. }
  destruct (get_execution_of_row
              (set_active_executions (active_executions s2 - 1)%Z s2)
              row current_user_id K' In) as [Own _].
  rewrite Eid. split.
  - exists row. split; [by apply Own|]. repeat split; congruence.
  - intros other N.
    destruct (get_execution_of_row
                (set_active_executions (active_executions s2 - 1)%Z s2)
                row other K' In) as [_ Other].
    apply Other. congruence.
Qed.

Lemma execute_prompt_then_get_execution_witness :
  keyed_by_position (prompt_execution_history example_state) ∧
  ∃ resp s',
    @execute_prompt example_libraries example_world 1 example_request 7 example_state
    = (Ok resp, s') ∧
    (∃ row,
       get_execution (schemas.execution_id resp) 7 s' = (Ok row, s') ∧
       models.prompt_id row = 1%Z ∧
       models.output row = Some (schemas.output resp) ∧
       models.llm_provider row = schemas.resp_llm_provider resp ∧
       models.llm_model row = schemas.resp_llm_model resp ∧
       models.tokens_used row = schemas.tokens_used resp ∧
       models.cost row = schemas.cost resp ∧
       models.execution_time row = schemas.execution_time resp ∧
       models.status row = "success") ∧
    (∀ other, other ≠ 7%Z →
       get_execution (schemas.execution_id resp) other s'
       = (Raise (HTTPException 404 "Execution not found"), s')).
Proof.
  assert (K : keyed_by_position (prompt_execution_history example_state)).
  { intros i r L. cbn in L. by rewrite lookup_nil in L. }
  split; [exact K|].
  destruct (example_run_succeeds) as (resp & s' & row & Run & _).
  exists resp, s'. split; [exact Run|].
  apply (@execute_prompt_then_get_execution example_libraries example_world 1
           example_request 7 example_state s' resp K Run).
Defined.

Lemma restore_gauge (s : state) :
  set_active_executions
    (active_executions (set_active_executions (active_executions s + 1)%Z s) - 1)%Z
    (set_active_executions (active_executions s + 1)%Z s) = s.
Proof. destruct s. unfold set_active_executions. cbn. f_equal. lia. Qed.

(** X16: an unknown prompt is a 404 before anything else is looked at:
    whatever the variables, the provider and the world, the route raises
    [HTTPException] 404 and leaves the state as it was. *)
Theorem execute_prompt_not_found `{Libraries} (w : World) (prompt_id : Z)
    (execution_request : schemas.PromptExecutionRequest) (current_user_id : Z)
    (s : state) :
  expert_prompts s !! prompt_id = None →
  execute_prompt w prompt_id execution_request current_user_id s
  = (Raise (HTTPException 404 "Expert prompt not found"), s).
Proof.
  intros Missing.
  pose proof (execute_prompt_unfold w prompt_id execution_request current_user_id s) as U.
  cbv zeta in U. unfold try_except, execute_prompt_try, db_query_prompt in U.
  unfold_M. cbn in U. rewrite Missing in U. cbn in U.
  rewrite U. f_equal. apply restore_gauge.
Qed.

Lemma execute_prompt_not_found_witness :
  expert_prompts example_state !! 3%Z = None ∧
  @execute_prompt example_libraries example_world 3 incomplete_request 7 example_state
  = (Raise (HTTPException 404 "Expert prompt not found"), example_state).
Proof.
  split; [reflexivity|].
  apply (@execute_prompt_not_found example_libraries example_world 3 incomplete_request 7
           example_state).
  reflexivity.
Defined.

(** X17: a provider that cannot be resolved is a 400 and leaves no trace.
    When the variables are valid but the requested provider is not
    registered, or its API key is not set, the route raises
    [HTTPException] 400 with the factory's message, and the state is as it
    was: no row, no metric. *)
Theorem execute_prompt_provider_unresolved `{Libraries} (w : World) (prompt_id : Z)
    (execution_request : schemas.PromptExecutionRequest) (current_user_id : Z)
    (s : state) (prompt : models.ExpertPrompt) (vv : gmap string json) (e : py_exn) :
  expert_prompts s !! prompt_id = Some prompt →
  validate_variables_against_schema (schemas.variables execution_request)
    (models.variables_schema prompt) = Ok vv →
  LLMFactory.get_provider (getenv w) (vendors w)
    (py_or (schemas.llm_provider execution_request) "openai") = Raise e →
  execute_prompt w prompt_id execution_request current_user_id s
  = (Raise (HTTPException 400 (str_exn e)), s).
Proof.
  intros Found V P.
  assert (∃ msg, e = ValueError msg) as [msg ->].
  { destruct (get_provider_cases (getenv w) (vendors w)
                (py_or (schemas.llm_provider execution_request) "openai"))
      as [(_ & [(_ & p & G & _)|(_ & G)])|(_ & G)]; rewrite G in P;
      [discriminate|injection P as <-; eauto..]. }
  pose proof (execute_prompt_unfold w prompt_id execution_request current_user_id s) as U.
  cbv zeta in U.
  unfold try_except, execute_prompt_try, db_query_prompt, except_ValueError in U.
  unfold_M. cbn in U. rewrite Found in U. cbn in U. rewrite V, P in U. cbn in U.
  rewrite U. f_equal. apply restore_gauge.
Qed.

Lemma execute_prompt_provider_unresolved_witness :
  expert_prompts example_state !! 1%Z = Some example_prompt ∧
  @validate_variables_against_schema example_libraries
    (schemas.variables example_request) (models.variables_schema example_prompt)
  = Ok example_enriched ∧
  LLMFactory.get_provider (getenv unconfigured_world) (vendors unconfigured_world)
    (py_or (schemas.llm_provider example_request) "openai")
  = Raise (ValueError "OPENAI_API_KEY environment variable not set") ∧
  @execute_prompt example_libraries unconfigured_world 1 example_request 7 example_state
  = (Raise (HTTPException 400 "OPENAI_API_KEY environment variable not set"),
     example_state).
Proof.
  split; [reflexivity|]. split; [vm_compute; reflexivity|]. split; [reflexivity|].
  apply (@execute_prompt_provider_unresolved example_libraries unconfigured_world 1
           example_request 7 example_state example_prompt example_enriched
           (ValueError "OPENAI_API_KEY environment variable not set"));
    [reflexivity | vm_compute; reflexivity | reflexivity].
Defined.



(** X19: a crash before dispatch is recorded as a failed execution. When
    the validator call raises anything but a [ValueError] (the enrichment's
    [TypeError], say), or formatting raises anything but a [KeyError] (a
    malformed template), the route answers 500 rather than 400, writes one
    "error" row with [str(e)], and counts one error; the vendor was not
    called, so the clock has not moved. *)
Theorem execute_prompt_crash_recorded `{Libraries} (w : World) (prompt_id : Z)
    (execution_request : schemas.PromptExecutionRequest) (current_user_id : Z)
    (s : state) (prompt : models.ExpertPrompt) (e : py_exn) :
  expert_prompts s !! prompt_id = Some prompt →
  (validate_variables_against_schema (schemas.variables execution_request)
     (models.variables_schema prompt) = Raise e ∧ (∀ msg, e ≠ ValueError msg)) ∨
  (∃ vv llm_provider,
     validate_variables_against_schema (schemas.variables execution_request)
       (models.variables_schema prompt) = Ok vv ∧
     LLMFactory.get_provider (getenv w) (vendors w)
       (py_or (schemas.llm_provider execution_request) "openai") = Ok llm_provider ∧
     str_format (models.template prompt) vv = Raise e ∧ (∀ k, e ≠ KeyError k)) →
  ∃ s',
    execute_prompt w prompt_id execution_request current_user_id s
    = (Raise (HTTPException 500 ("Execution failed: " ++ str_exn e)), s') ∧
    prompt_execution_history s' =
      (prompt_execution_history s ++
       [error_history prompt_id execution_request current_user_id
          (Z.of_nat (length (prompt_execution_history s)) + 1)
          (now s - now s)%Q e])%list ∧
    now s' = now s ∧
    prompt_executions_total s'
      !! (prompt_id, py_or (schemas.llm_provider execution_request) "unknown", "error")
    = Some (default 0 (prompt_executions_total s
              !! (prompt_id, py_or (schemas.llm_provider execution_request) "unknown",
                  "error")) + 1)%Q.
Proof.
  intros Found Crash.
  pose proof (execute_prompt_unfold w prompt_id execution_request current_user_id s) as U.
  cbv zeta in U.
  unfold try_except, execute_prompt_try, db_query_prompt, except_ValueError,
    except_KeyError in U.
  unfold_M. cbn in U. rewrite Found in U. cbn in U.
  destruct Crash as [(V & N)|(vv & llm_provider & V & P & F & N)].
  - rewrite V in U.
    destruct e; try (by destruct (N msg)); cbn in U;
      (eexists; split; [exact U|]; cbn; repeat split; by rewrite lookup_insert_eq).
  - rewrite V, P, F in U.
    destruct e; try (by destruct (N key)); cbn in U;
      (eexists; split; [exact U|]; cbn; repeat split; by rewrite lookup_insert_eq).
Qed.

Lemma execute_prompt_crash_recorded_witness :
  expert_prompts flag_state !! 1%Z = Some flag_prompt ∧
  ((@validate_variables_against_schema example_libraries
      (schemas.variables empty_request) (models.variables_schema flag_prompt)
    = Raise (TypeError "argument of type 'bool' is not iterable") ∧
    (∀ msg, TypeError "argument of type 'bool' is not iterable" ≠ ValueError msg)) ∨
   (∃ vv llm_provider,
      @validate_variables_against_schema example_libraries
        (schemas.variables empty_request) (models.variables_schema flag_prompt) = Ok vv ∧
      LLMFactory.get_provider (getenv example_world) (vendors example_world)
        (py_or (schemas.llm_provider empty_request) "openai") = Ok llm_provider ∧
      simple_format (models.template flag_prompt) vv
      = Raise (TypeError "argument of type 'bool' is not iterable") ∧
      (∀ k, TypeError "argument of type 'bool' is not iterable" ≠ KeyError k))) ∧
  ∃ s',
    @execute_prompt example_libraries example_world 1 empty_request 7 flag_state
    = (Raise (HTTPException 500
                "Execution failed: argument of type 'bool' is not iterable"), s') ∧
    prompt_execution_history s' =
      [error_history 1 empty_request 7 1 (100 - 100)%Q
         (TypeError "argument of type 'bool' is not iterable")] ∧
    now s' = 100%Q ∧
    prompt_executions_total s' !! (1%Z, "openai", "error") = Some (0 + 1)%Q.
Proof.
  assert (Crash : @validate_variables_against_schema example_libraries
                    (schemas.variables empty_request)
                    (models.variables_schema flag_prompt)
                  = Raise (TypeError "argument of type 'bool' is not iterable") ∧
                  (∀ msg, TypeError "argument of type 'bool' is not iterable"
                          ≠ ValueError msg)).
  { split; [vm_compute; reflexivity|discriminate]. }
  split; [reflexivity|]. split; [left; exact Crash|].
  apply (@execute_prompt_crash_recorded example_libraries example_world 1 empty_request 7
           flag_state flag_prompt (TypeError "argument of type 'bool' is not iterable"));
    [reflexivity | left; exact Crash].
Defined.

(** * Registration and login *)

Lemma query_user_by_email_Some (email : string) (table : list users.User)
    (u : users.User) :
  query_user_by_email email table = Some u → u ∈ table ∧ users.email u = email.
Proof.
  unfold query_user_by_email. intros E.
  assert (u ∈ filter (λ u, users.email u = email) table) as In.
  { destruct (filter _ table) as [|x l]; [discriminate|]. injection E as ->. by left. }
  apply list_elem_of_filter in In as [? ?]. done.
Qed.

Lemma query_user_by_email_None (email : string) (table : list users.User) :
  query_user_by_email email table = None ↔ email ∉ map users.email table.
Proof.
  unfold query_user_by_email. split.
  - intros E In. apply list_elem_of_fmap in In as (u & -> & In).
    assert (u ∈ filter (λ u', users.email u' = users.email u) table) as F
      by (by apply list_elem_of_filter).
    destruct (filter _ table); [by apply elem_of_nil in F|discriminate].
  - intros Out. destruct (filter _ table) as [|u l] eqn:F; [done|]. exfalso.
    assert (u ∈ filter (λ u, users.email u = email) table) as In by (rewrite F; by left).
    apply list_elem_of_filter in In as [<- In]. apply Out.
    apply list_elem_of_fmap. eauto.
Qed.

(** X20: an email registers once. If some user already has the email,
    [register] raises [HTTPException] 400 "Email already registered"
    and leaves the table as it was, whatever the user name and password. *)
Theorem register_rejects_known_email (L : AuthLibraries) (user : UserCreate)
    (s : auth_state) (u : users.User) :
  u ∈ users_table s →
  users.email u = create_email user →
  register L user s = (Raise (AuthHTTPException 400 "Email already registered"), s).
Proof.
  intros In E. unfold register.
  destruct (query_user_by_email (create_email user) (users_table s)) as [u'|] eqn:Q;
    [done|].
  apply query_user_by_email_None in Q. destruct Q.
  apply list_elem_of_fmap. eauto.
Qed.



(** X22: [login] gives nothing away and changes nothing. Either it
    returns a bearer token whose claims are the key of a user with that
    email, whose stored hash verifies the password, and an expiry 30
    minutes from now; or it raises the same [HTTPException] 401
    "Incorrect email or password", whether the email is unknown or the
    password is wrong. *)
Theorem login_outcomes (L : AuthLibraries) (user : UserLogin) (s : auth_state) :
  (login L user s).2 = s ∧
  ((login L user s).1 = Raise (AuthHTTPException 401 "Incorrect email or password") ∧
   (email_known_and_verified L user s = false)
   ∨
   ∃ db_user,
     db_user ∈ users_table s ∧
     users.email db_user = login_email user ∧
     pwd_verify L (login_password user) (users.hashed_password db_user) = true ∧
     (login L user s).1
     = Ok {| access_token :=
               jwt_encode L (<["exp" := JFloat (utcnow s + 30 * 60)%Q]>
                               {[ "sub" := JStr (pretty (users.id db_user)) ]});
             token_type := "bearer" |}).
Proof.
  unfold login, email_known_and_verified.
  destruct (query_user_by_email (login_email user) (users_table s)) as [db_user|] eqn:Q;
    cbn; [|split; [done|by left]].
  destruct (pwd_verify L (login_password user) (users.hashed_password db_user)) eqn:V;
    cbn; [|split; [done|by left]].
  split; [done|]. right. exists db_user.
  apply query_user_by_email_Some in Q as [In E]. done.
Qed.

(** X23: who registered can log in. After a successful [register], and
    provided the library verifies a password against the hash it made of
    it, [login] with the same email and password returns a bearer token
    for the key of the new user, expiring in 30 minutes, and leaves the
    table as registration left it. *)
Theorem register_then_login (L : AuthLibraries) (user : UserCreate)
    (s s' : auth_state) (db_user : users.User) :
  register L user s = (Ok db_user, s') →
  pwd_verify L (create_password user) (pwd_hash L (create_password user)) = true →
  login L {| login_email := create_email user; login_password := create_password user |} s'
  = (Ok {| access_token :=
             jwt_encode L (<["exp" := JFloat (utcnow s + 30 * 60)%Q]>
                             {[ "sub" := JStr (pretty (users.id db_user)) ]});
           token_type := "bearer" |}, s').
Proof.
  unfold register.
  destruct (query_user_by_email (create_email user) (users_table s)) as [u'|] eqn:Q;
    [discriminate|].
  case_bool_decide as Taken; [discriminate|]. intros [= <- <-] V.
  unfold login, query_user_by_email in *.
  cbn [users_table login_email login_password].
  rewrite filter_app, filter_cons_True by done.
  destruct (filter _ (users_table s)) as [|x l]; [|discriminate]. cbn.
  rewrite V. reflexivity.
Qed.

Lemma register_then_login_witness :
  register example_auth ada no_users = (Ok ada_user, ada_registered) ∧
  pwd_verify example_auth (create_password ada)
    (pwd_hash example_auth (create_password ada)) = true ∧
  login example_auth
    {| login_email := create_email ada; login_password := create_password ada |}
    ada_registered
  = (Ok {| access_token :=
             jwt_encode example_auth
               (<["exp" := JFloat (utcnow no_users + 30 * 60)%Q]>
                  {[ "sub" := JStr (pretty (users.id ada_user)) ]});
           token_type := "bearer" |}, ada_registered).
Proof.
  split; [reflexivity|]. split; [reflexivity|].
  apply (register_then_login example_auth ada no_users ada_registered ada_user);
    reflexivity.
Defined.

Lemma register_rejects_known_email_witness :
  ada_user ∈ users_table ada_registered ∧
  users.email ada_user = create_email ada ∧
  register example_auth ada ada_registered
  = (Raise (AuthHTTPException 400 "Email already registered"), ada_registered).
Proof.
  assert (In : ada_user ∈ users_table ada_registered) by by left.
  split; [exact In|]. split; [reflexivity|].
  apply (register_rejects_known_email example_auth ada ada_registered ada_user In).
  reflexivity.
Defined.
